(** * Donation backend (backend_prod_ready.py): model and verified contracts

    The Flask handlers [create_order], [verify_payment] and
    [serve_certificate], together with the helpers [verify_signature],
    [generate_certificate] and [send_email_with_attachment], embedded as
    functions over JSON values.  Python exceptions are the [Raise] branch
    of [result]; the certificate directory and the log of SMTP sessions
    form the [World] threaded through the effectful functions. *)

From Stdlib Require Import ZArith Ascii Bool Lia.
From Stdlib Require Import DecimalString DecimalZ.
From Stdlib Require Import Floats.SpecFloat.
From stdpp Require Import gmap strings list.

Local Open Scope Z_scope.

(** ** Python values that [request.get_json()] can produce *)

#[warnings="-register-all"]
Inductive json : Type :=
| JNull
| JBool (b : bool)
| JInt (z : Z)
| JFloat (f : spec_float)
| JStr (s : string)
| JList (l : list json)
| JDict (d : list (string * json)).

(** A [JDict] lists the items of a Python dict; a key is looked up at its
    first binding. *)
Fixpoint assoc (k : string) (d : list (string * json)) : option json :=
  match d with
  | [] => None
  | (k', v) :: d' => if String.eqb k k' then Some v else assoc k d'
  end.

(** ** Exceptions *)

(** Every handler in the file catches [Exception] and only ever looks at
    [str(e)], so an exception is modelled by its message. *)
Inductive result (A : Type) : Type :=
| Ok (a : A)
| Raise (msg : string).
Arguments Ok {A} a.
Arguments Raise {A} msg.

Definition bind {A B} (r : result A) (k : A -> result B) : result B :=
  match r with
  | Ok a => k a
  | Raise m => Raise m
  end.

Notation "x <- r ;; k" := (bind r (fun x => k))
  (at level 100, r at next level, right associativity).

(** [try: body / except Exception as e: handler(str(e))] *)
Definition try_except {A} (body : result A) (handler : string -> A) : A :=
  match body with
  | Ok a => a
  | Raise m => handler m
  end.

(** ** Python builtins used by the handlers *)

Definition type_name (v : json) : string :=
  match v with
  | JNull => "NoneType"
  | JBool _ => "bool"
  | JInt _ => "int"
  | JFloat _ => "float"
  | JStr _ => "str"
  | JList _ => "list"
  | JDict _ => "dict"
  end.

(** [bool(v)] *)
Definition truthy (v : json) : bool :=
  match v with
  | JNull => false
  | JBool b => b
  | JInt z => negb (z =? 0)
  | JFloat (S754_zero _) => false
  | JFloat _ => true
  | JStr "" => false
  | JStr _ => true
  | JList [] => false
  | JList _ => true
  | JDict [] => false
  | JDict _ => true
  end.

(** [request.get_json() or {}] *)
Definition or_empty (v : json) : json :=
  if truthy v then v else JDict [].

(** [obj.get(k, default)]: only a dict has the attribute. *)
Definition py_get (obj : json) (k : string) (default : json) : result json :=
  match obj with
  | JDict d => Ok (from_option id default (assoc k d))
  | _ => Raise ("'" +:+ type_name obj +:+ "' object has no attribute 'get'")
  end.

(** [v is True] *)
Definition is_True (v : json) : bool :=
  match v with
  | JBool true => true
  | _ => false
  end.

(** [v == s] for a str literal [s] *)
Definition eq_str (v : json) (s : string) : bool :=
  match v with
  | JStr s' => String.eqb s' s
  | _ => false
  end.

(** Decimal text of an integer, as an f-string prints it. *)
Definition dec (z : Z) : string := NilEmpty.string_of_int (Z.to_int z).

(** [int(f)] for a float: truncation toward zero, an exception on NaN and
    on the infinities. *)
Definition float_trunc (f : spec_float) : result Z :=
  match f with
  | S754_zero _ => Ok 0
  | S754_infinity _ => Raise "cannot convert float infinity to integer"
  | S754_nan => Raise "cannot convert float NaN to integer"
  | S754_finite s m e =>
      let a := Z.shiftl (Z.pos m) e in Ok (if s then - a else a)
  end.

(** [s.replace("/", "_")] *)
Fixpoint replace_slash (s : string) : string :=
  match s with
  | EmptyString => EmptyString
  | String c s' =>
      String (if Ascii.eqb c "/" then "_"%char else c) (replace_slash s')
  end.

Definition nl : string := String (ascii_of_nat 10) EmptyString.

(** ** Configuration, collaborators and state *)

(** The module-level constants read from the environment at start-up.  A
    variable that is not set leaves the empty string behind. *)
Record Config : Type := {
  USE_RAZORPAY : bool;
  RAZORPAY_KEY_ID : string;
  SMTP_HOST : string;
  SMTP_PORT : Z;
  SMTP_USER : string;
  SMTP_PASS : string;
  FROM_EMAIL : string
}.

(** What the handlers obtain from code outside this file.  A collaborator
    that raises returns [Raise] with the text of the exception. *)
Record Externals : Type := {
  (** [int(s)] for a str [s] *)
  int_of_str : string -> result Z;
  (** the text an f-string prints for a float, a list or a dict *)
  repr_of : json -> string;
  (** [razorpay_client.utility.verify_payment_signature], given the order
      id, the payment id and the signature *)
  verify_payment_signature : json -> json -> json -> result unit;
  (** [razorpay_client.order.create(order_data)] *)
  order_create : json -> result (list (string * json));
  (** the reportlab canvas: the bytes that [c.save()] leaves in the file of
      the given name for a donor name, amount, order id and date *)
  canvas_save : string -> json -> Z -> string -> string -> result (list Byte.byte);
  (** composing the MIME message and running the SMTP session: sender,
      recipient, subject, body, attachment name and attachment content *)
  smtp_session :
    string -> json -> string -> string -> string -> list Byte.byte -> result unit
}.

(** What a single request reads from the clock and the random source. *)
Record Ambient : Type := {
  (** [int(time.time())] as read in the handler body *)
  time_handler : Z;
  (** [int(time.time())] as read inside [generate_certificate] *)
  time_cert : Z;
  (** [datetime.utcnow().strftime("%Y-%m-%d")] *)
  utc_date : string;
  (** [uuid.uuid4().hex] *)
  uuid_hex : string
}.

(** One call of [send_email_with_attachment]. *)
Record Email : Type := {
  to_email : json;
  subject : string;
  body : string;
  attachment_path : string
}.

(** The certificate directory [CERT_DIR], keyed by file name, and the calls
    of [send_email_with_attachment] made so far, newest first.  The
    directory is flat, [generate_certificate] being its only writer, and a
    path below it is written as the file name alone. *)
Record World : Type := {
  files : gmap string (list Byte.byte);
  send_attempts : list Email
}.

(** ** Responses *)

Inductive content : Type :=
| Json (j : json)
| Attachment (name : string) (data : list Byte.byte)
| ErrorPage.

Record response : Type := {
  status : Z;
  payload : content
}.

(** [jsonify(d)] and [jsonify(d), code] *)
Definition jsonify (code : Z) (d : list (string * json)) : response :=
  {| status := code; payload := Json (JDict d) |}.

(** [abort(404)] *)
Definition abort404 : response := {| status := 404; payload := ErrorPage |}.

(** [str(v)] as an f-string formats it. *)
Definition py_str (ext : Externals) (v : json) : string :=
  match v with
  | JNull => "None"
  | JBool true => "True"
  | JBool false => "False"
  | JInt z => dec z
  | JStr s => s
  | _ => repr_of ext v
  end.

(** [int(v)] *)
Definition py_int (ext : Externals) (v : json) : result Z :=
  match v with
  | JBool b => Ok (Z.b2z b)
  | JInt z => Ok z
  | JFloat f => float_trunc f
  | JStr s => int_of_str ext s
  | _ =>
      Raise ("int() argument must be a string, a bytes-like object or a real number, not '"
             +:+ type_name v +:+ "'")
  end.

(** [d[k]] for a dict *)
Definition getitem (d : list (string * json)) (k : string) : result json :=
  match assoc k d with
  | Some v => Ok v
  | None => Raise ("'" +:+ k +:+ "'")
  end.

(** ** Paths below the certificate directory *)

(** The directory is flat: [generate_certificate] is its only writer and
    writes names without "/".  Paths are POSIX paths within the length
    limits of the file system. *)

(** [s.split("/")] *)
Fixpoint path_split (s : string) : list string :=
  match s with
  | EmptyString => [EmptyString]
  | String c s' =>
      if Ascii.eqb c "/" then EmptyString :: path_split s'
      else match path_split s' with
           | p :: ps => String c p :: ps
           | [] => [String c EmptyString]
           end
  end.

(** The components of a path: empty ones and "." are dropped, by pathlib
    when it joins and by [posixpath.normpath] alike. *)
Definition path_parts (filename : string) : list string :=
  List.filter (fun p => negb (String.eqb p "") && negb (String.eqb p "."))
    (path_split filename).

(** An absolute path replaces [CERT_DIR] when joined to it. *)
Definition is_abs (filename : string) : bool :=
  match filename with
  | String c _ => Ascii.eqb c "/"
  | EmptyString => false
  end.

(** [(CERT_DIR / filename).exists()].  The world holds the certificate
    directory and nothing else, so there is no answer ([None]) for a path
    that leaves it, being absolute or starting with "..".  Inside, the
    directory itself exists, an entry exists when it is in [files], and
    nothing lies below an entry. *)
Definition path_exists (filename : string) (w : World) : option bool :=
  if is_abs filename then None
  else match path_parts filename with
       | [] => Some true
       | n :: rest =>
           if String.eqb n ".." then None
           else match rest with
                | [] => Some (bool_decide (is_Some (files w !! n)))
                | _ :: _ => Some false
                end
       end.

(** [posixpath.normpath] on the components of a relative path, the
    components kept so far in reverse: ".." takes back the component before
    it, and stays when there is none or when that is ".." itself. *)
Fixpoint normpath_go (kept : list string) (parts : list string) : list string :=
  match parts with
  | [] => rev kept
  | p :: ps =>
      if String.eqb p ".." then
        match kept with
        | [] => normpath_go [p] ps
        | top :: kept' =>
            if String.eqb top ".." then normpath_go (p :: kept) ps
            else normpath_go kept' ps
        end
      else normpath_go (p :: kept) ps
  end.

(** werkzeug's [safe_join(CERT_DIR, filename)], as components below
    [CERT_DIR]: the normalised path is refused when it is absolute, is ".."
    or starts with "../". *)
Definition safe_join (filename : string) : option (list string) :=
  if is_abs filename then None
  else match normpath_go [] (path_parts filename) with
       | [] => Some []
       | p :: ps => if String.eqb p ".." then None else Some (p :: ps)
       end.

(** Flask's [send_from_directory(CERT_DIR, filename, as_attachment=True)]:
    404 when [safe_join] refuses the path or the path is not a regular
    file; otherwise the bytes of the file, offered for download under its
    base name. *)
Definition send_from_directory (filename : string) (w : World) : response :=
  match safe_join filename with
  | Some [n] =>
      match files w !! n with
      | Some data => {| status := 200; payload := Attachment n data |}
      | None => abort404
      end
  | _ => abort404
  end.

(** ** The handlers *)

Section Backend.

Variable cfg : Config.
Variable ext : Externals.

Definition mode_name : string :=
  if USE_RAZORPAY cfg then "razorpay" else "dummy".

(** [GET /] *)
Definition root : response :=
  jsonify 200 [("status", JStr "ok"); ("mode", JStr mode_name)].

Definition _fake_order (amb : Ambient) (amount_inr : Z) : list (string * json) :=
  let order_id := "order_fake_" +:+ String.substring 0 12 (uuid_hex amb) in
  [("id", JStr order_id); ("amount", JInt (amount_inr * 100));
   ("currency", JStr "INR"); ("key", JStr (RAZORPAY_KEY_ID cfg));
   ("mode", JStr "dummy")].

(** The gateway branch of [create_order], the body of its [try]. *)
Definition razorpay_order (amb : Ambient) (amount : Z) : result response :=
  let order_data :=
    JDict [("amount", JInt (amount * 100)); ("currency", JStr "INR");
           ("receipt", JStr ("rcpt_" +:+ dec (time_handler amb)));
           ("payment_capture", JInt 1)] in
  order <- order_create ext order_data ;;
  oid <- getitem order "id" ;;
  oamount <- getitem order "amount" ;;
  ocurrency <- getitem order "currency" ;;
  Ok (jsonify 200 [("id", oid); ("amount", oamount); ("currency", ocurrency);
                   ("key", JStr (RAZORPAY_KEY_ID cfg));
                   ("mode", JStr "razorpay")]).

(** [POST /create_order]; [request_json] is what [request.get_json()]
    returned. *)
Definition create_order (amb : Ambient) (request_json : json) : response :=
  let data := or_empty request_json in
  match (v <- py_get data "amount" (JInt 0) ;; py_int ext v) with
  | Raise _ => jsonify 400 [("error", JStr "Invalid amount")]
  | Ok amount =>
      if amount <=? 0 then jsonify 400 [("error", JStr "Amount must be > 0")]
      else if USE_RAZORPAY cfg then
        try_except (razorpay_order amb amount)
          (fun e => jsonify 500 [("error", JStr "Razorpay order creation failed");
                                 ("details", JStr e)])
      else jsonify 200 (_fake_order amb amount)
  end.

(** The statements of [verify_signature] inside its [try]. *)
Definition verify_signature_body (payload_dict : json)
  : result (bool * option string) :=
  razorpay_order_id <- py_get payload_dict "razorpay_order_id" JNull ;;
  razorpay_payment_id <- py_get payload_dict "razorpay_payment_id" JNull ;;
  razorpay_signature <- py_get payload_dict "razorpay_signature" JNull ;;
  if negb (truthy razorpay_order_id && truthy razorpay_payment_id
           && truthy razorpay_signature)
  then Ok (false, Some "Missing fields")
  else if USE_RAZORPAY cfg then
    Ok (try_except
          (_ <- verify_payment_signature ext razorpay_order_id
                  razorpay_payment_id razorpay_signature ;;
           Ok (true, None))
          (fun e => (false, Some e)))
  else
    simulate <- py_get payload_dict "simulate" JNull ;;
    if is_True simulate then Ok (true, None)
    else if eq_str razorpay_signature "sim_signature" then Ok (true, None)
    else Ok (false, Some "Dummy mode requires simulate:true or sim_signature").

(** [verify_signature]: the body under [except Exception as e: return
    False, str(e)].  The outcome is a [result] so that an exception leaving
    the function would show as [Raise]. *)
Definition verify_signature (payload_dict : json)
  : result (bool * option string) :=
  Ok (try_except (verify_signature_body payload_dict)
        (fun e => (false, Some e))).

(** The file name that [generate_certificate] builds from the order id and
    the clock. *)
Definition certificate_filename (order_id : string) (now : Z) : string :=
  let safe_order := replace_slash order_id in
  "certificate_" +:+ safe_order +:+ "_" +:+ dec now +:+ ".pdf".

(** [generate_certificate(name, amount, order_id)]: writes the PDF into the
    certificate directory and returns its file name.  Only a str has
    [replace]; a save that raises leaves the directory as it was. *)
Definition generate_certificate (amb : Ambient) (name : json) (amount : Z)
    (order_id : json) (w : World) : result string * World :=
  match order_id with
  | JStr oid =>
      let filename := certificate_filename oid (time_cert amb) in
      match canvas_save ext filename name amount oid (utc_date amb) with
      | Ok data =>
          (Ok filename,
           {| files := <[filename := data]> (files w);
              send_attempts := send_attempts w |})
      | Raise e => (Raise e, w)
      end
  | _ =>
      (Raise ("'" +:+ type_name order_id
              +:+ "' object has no attribute 'replace'"), w)
  end.

(** [send_email_with_attachment]: the attachment is read from the
    certificate directory, then the message goes through the SMTP session. *)
Definition send_email_with_attachment (m : Email) (w : World)
  : result unit * World :=
  let w' := {| files := files w; send_attempts := m :: send_attempts w |} in
  match files w !! attachment_path m with
  | None =>
      (Raise ("[Errno 2] No such file or directory: '"
              +:+ attachment_path m +:+ "'"), w')
  | Some data =>
      (smtp_session ext (FROM_EMAIL cfg) (to_email m) (subject m) (body m)
         (attachment_path m) data, w')
  end.

(** [GET /certificate/<filename>].  Where the model cannot tell whether
    [CERT_DIR / filename] exists the path has left the directory, and
    [send_from_directory] refuses it with the same 404 that [abort] gives
    (lemma [send_from_directory_outside]). *)
Definition serve_certificate (filename : string) (w : World) : response :=
  match path_exists filename w with
  | Some false => abort404
  | _ => send_from_directory filename w
  end.

(** What [verify_payment] reads from the payload once the signature is
    accepted (the first four statements of its [try]). *)
Record Donation : Type := {
  donor_name : json;
  donor_email : json;
  amount : Z;
  order_id : json
}.

Definition read_donation (amb : Ambient) (payload : json) : result Donation :=
  name <- py_get payload "name" (JStr "Donor") ;;
  email <- py_get payload "email" JNull ;;
  amount_v <- py_get payload "amount" (JInt 0) ;;
  amount <- py_int ext amount_v ;;
  fallback <- py_get payload "order_id"
                (JStr ("order_" +:+ dec (time_handler amb))) ;;
  oid <- py_get payload "razorpay_order_id" fallback ;;
  Ok {| donor_name := name; donor_email := email; amount := amount;
        order_id := oid |}.

(** [donor_email and SMTP_HOST and SMTP_USER and SMTP_PASS] *)
Definition email_enabled (email : json) : bool :=
  truthy email && truthy (JStr (SMTP_HOST cfg))
  && truthy (JStr (SMTP_USER cfg)) && truthy (JStr (SMTP_PASS cfg)).

Definition thanks_email (d : Donation) (fname : string) : Email :=
  {| to_email := donor_email d;
     subject := "Thank you for your donation — Pratibha Charitable Trust";
     body :=
       "Dear " +:+ py_str ext (donor_name d) +:+ "," +:+ nl +:+ nl
       +:+ "Thank you for your generous donation of INR " +:+ dec (amount d)
       +:+ "." +:+ nl
       +:+ "Please find your donation certificate attached." +:+ nl +:+ nl
       +:+ "Order ID: " +:+ py_str ext (order_id d) +:+ nl
       +:+ "Warm regards," +:+ nl +:+ "Pratibha Charitable Trust";
     attachment_path := fname |}.

Definition option_json (o : option string) : json :=
  match o with
  | Some s => JStr s
  | None => JNull
  end.

Definition success_result (d : Donation) (cert_url : string)
    (email_sent : bool) (email_err : option string) : list (string * json) :=
  [("status", JStr "success");
   ("message", JStr (if USE_RAZORPAY cfg then "Payment verified"
                     else "Dummy payment accepted"));
   ("payment", JDict [("order_id", order_id d); ("amount", JInt (amount d))]);
   ("certificate_url", JStr cert_url);
   ("email_sent", JBool email_sent);
   ("email_error", option_json email_err)].

(** The [try] block of [verify_payment]. *)
Definition certify_and_mail (amb : Ambient) (payload : json) (w : World)
  : result response * World :=
  match read_donation amb payload with
  | Raise e => (Raise e, w)
  | Ok d =>
      match generate_certificate amb (donor_name d) (amount d) (order_id d) w with
      | (Raise e, w1) => (Raise e, w1)
      | (Ok fname, w1) =>
          let cert_url := "/certificate/" +:+ fname in
          if email_enabled (donor_email d) then
            match send_email_with_attachment (thanks_email d fname) w1 with
            | (Ok _, w2) =>
                (Ok (jsonify 200 (success_result d cert_url true None)), w2)
            | (Raise e, w2) =>
                (Ok (jsonify 200 (success_result d cert_url false (Some e))), w2)
            end
          else (Ok (jsonify 200 (success_result d cert_url false None)), w1)
      end
  end.

(** [POST /verify_payment].  An exception that no [except] of the handler
    catches would leave it as [Raise]. *)
Definition verify_payment (amb : Ambient) (request_json : json) (w : World)
  : result response * World :=
  let payload := or_empty request_json in
  match verify_signature payload with
  | Raise e => (Raise e, w)
  | Ok (false, err) =>
      (Ok (jsonify 400 [("error", JStr "Signature verification failed");
                        ("details", option_json err)]), w)
  | Ok (true, _) =>
      match certify_and_mail amb payload w with
      | (Raise e, w') =>
          (Ok (jsonify 500 [("error", JStr "Internal error generating certificate");
                            ("details", JStr e)]), w')
      | (Ok r, w') => (Ok r, w')
      end
  end.

End Backend.

(** ** Concrete collaborators, used to run the handlers on examples *)

Module Sample.

(** A reader of plain decimal literals, standing in for [int] on a str. *)
Definition decimal_literal (s : string) : result Z :=
  match NilZero.int_of_string s with
  | Some d => Ok (Z.of_int d)
  | None => Raise ("invalid literal for int() with base 10: '" +:+ s +:+ "'")
  end.

Definition pdf_bytes : list Byte.byte :=
  [Byte.x25; Byte.x50; Byte.x44; Byte.x46].

(** A gateway that accepts every signature, a canvas that always saves,
    an SMTP server that always delivers. *)
Definition ext : Externals :=
  {| int_of_str := decimal_literal;
     repr_of := fun _ => "?";
     verify_payment_signature := fun _ _ _ => Ok tt;
     order_create := fun _ => Raise "Authentication failed";
     canvas_save := fun _ _ _ _ _ => Ok pdf_bytes;
     smtp_session := fun _ _ _ _ _ _ => Ok tt |}.

(** The same with an SMTP server that refuses the connection. *)
Definition ext_smtp_down : Externals :=
  {| int_of_str := decimal_literal;
     repr_of := fun _ => "?";
     verify_payment_signature := fun _ _ _ => Ok tt;
     order_create := fun _ => Raise "Authentication failed";
     canvas_save := fun _ _ _ _ _ => Ok pdf_bytes;
     smtp_session := fun _ _ _ _ _ _ => Raise "[Errno 111] Connection refused" |}.

(** No environment variable set: dummy mode, no SMTP account. *)
Definition dummy_cfg : Config :=
  {| USE_RAZORPAY := false; RAZORPAY_KEY_ID := "rzp_test_dummy";
     SMTP_HOST := ""; SMTP_PORT := 587; SMTP_USER := ""; SMTP_PASS := "";
     FROM_EMAIL := "no-reply@example.com" |}.

(** Dummy mode with an SMTP account configured. *)
Definition mail_cfg : Config :=
  {| USE_RAZORPAY := false; RAZORPAY_KEY_ID := "rzp_test_dummy";
     SMTP_HOST := "smtp.example.com"; SMTP_PORT := 587;
     SMTP_USER := "trust@example.com"; SMTP_PASS := "secret";
     FROM_EMAIL := "trust@example.com" |}.

Definition amb : Ambient :=
  {| time_handler := 1700000000; time_cert := 1700000000;
     utc_date := "2023-11-14";
     uuid_hex := "0123456789abcdef0123456789abcdef" |}.

Definition empty_world : World := {| files := ∅; send_attempts := [] |}.

Definition simulate_only : json := JDict [("simulate", JBool true)].

(** A callback of the dummy checkout page. *)
Definition paid (extra : list (string * json)) : json :=
  JDict ([("razorpay_order_id", JStr "order_1");
          ("razorpay_payment_id", JStr "pay_1");
          ("razorpay_signature", JStr "sim_signature")] ++ extra).

End Sample.

(** Razorpay mode, with a gateway that knows one good signature and opens
    an order for whatever amount it is asked. *)
Module SampleGateway.

Definition razorpay_cfg : Config :=
  {| USE_RAZORPAY := true; RAZORPAY_KEY_ID := "rzp_live_key";
     SMTP_HOST := ""; SMTP_PORT := 587; SMTP_USER := ""; SMTP_PASS := "";
     FROM_EMAIL := "no-reply@example.com" |}.

Definition ext : Externals :=
  {| int_of_str := Sample.decimal_literal;
     repr_of := fun _ => "?";
     verify_payment_signature := fun _ _ sig =>
       if eq_str sig "good" then Ok tt
       else Raise "Razorpay Signature Verification Failed";
     order_create := fun order_data =>
       Ok [("id", JStr "order_N1");
           ("amount",
            match order_data with
            | JDict d => from_option id JNull (assoc "amount" d)
            | _ => JNull
            end);
           ("currency", JStr "INR")];
     canvas_save := fun _ _ _ _ _ => Ok Sample.pdf_bytes;
     smtp_session := fun _ _ _ _ _ _ => Ok tt |}.

(** A callback that tries the dummy-mode shortcuts. *)
Definition shortcut : json :=
  JDict [("razorpay_order_id", JStr "order_N1");
         ("razorpay_payment_id", JStr "pay_1");
         ("razorpay_signature", JStr "sim_signature");
         ("simulate", JBool true)].

End SampleGateway.

(** ** Vocabulary of the contracts *)

(** The value a payload carries under a key, if it is a dict that has it. *)
Definition field (k : string) (p : json) : option json :=
  match p with
  | JDict d => assoc k d
  | _ => None
  end.

(** The same with [None] for an absent key. *)
Definition field_or_null (k : string) (p : json) : json :=
  from_option id JNull (field k p).

Definition required_fields : list string :=
  ["razorpay_order_id"; "razorpay_payment_id"; "razorpay_signature"].

(** All three required fields are there and none of them is empty. *)
Definition required_present (p : json) : Prop :=
  Forall (fun k => truthy (field_or_null k p) = true) required_fields.

Definition simulate_or_sim_signature (p : json) : Prop :=
  field_or_null "simulate" p = JBool true
  \/ field_or_null "razorpay_signature" p = JStr "sim_signature".

(** A JSON number that is zero or negative. *)
Definition nonpositive (v : json) : Prop :=
  match v with
  | JInt z => z <= 0
  | JFloat (S754_zero _) => True
  | JFloat (S754_infinity s) => s = true
  | JFloat (S754_finite s _ _) => s = true
  | _ => False
  end.

(** [int(v)] raises. *)
Definition unparsable (ext : Externals) (v : json) : Prop :=
  exists e, py_int ext v = Raise e.

(** The keys of a JSON response body. *)
Definition body_keys (r : response) : option (list string) :=
  match payload r with
  | Json (JDict d) => Some (map fst d)
  | _ => None
  end.

(** The value under a key of a JSON response body. *)
Definition body_field (k : string) (r : response) : option json :=
  match payload r with
  | Json j => field k j
  | _ => None
  end.

(** One of the three required fields is absent from the request. *)
Definition missing_required (p : json) : Prop :=
  Exists (fun k => field k p = None) required_fields.

(** The signature check proper fails: the gateway raises on the three
    fields, or, in dummy mode, neither [simulate] nor the signature has the
    agreed value. *)
Definition signature_invalid (cfg : Config) (ext : Externals) (p : json) : Prop :=
  if USE_RAZORPAY cfg then
    exists e,
      verify_payment_signature ext (field_or_null "razorpay_order_id" p)
        (field_or_null "razorpay_payment_id" p)
        (field_or_null "razorpay_signature" p) = Raise e
  else ~ simulate_or_sim_signature p.

(** The order id reported inside the [payment] object of a response. *)
Definition payment_order_id (r : response) : option json :=
  body_field "payment" r ≫= field "order_id".

(** The keys of a successful verification response. *)
Definition success_keys : list string :=
  ["status"; "message"; "payment"; "certificate_url"; "email_sent";
   "email_error"].

(** The character occurs in the string. *)
Fixpoint has_char (c : ascii) (s : string) : bool :=
  match s with
  | EmptyString => false
  | String c' s' => Ascii.eqb c c' || has_char c s'
  end.

(** How the [try] block of [verify_payment] ends. *)
Inductive certified (cfg : Config) (ext : Externals) (amb : Ambient)
    (p : json) (w : World) : response -> World -> Prop :=
| certified_no_mail d fname w1 :
    read_donation ext amb p = Ok d ->
    generate_certificate ext amb (donor_name d) (amount d) (order_id d) w
    = (Ok fname, w1) ->
    email_enabled cfg (donor_email d) = false ->
    certified cfg ext amb p w
      (jsonify 200 (success_result cfg d ("/certificate/" +:+ fname) false None)) w1
| certified_mail_sent d fname w1 w2 :
    read_donation ext amb p = Ok d ->
    generate_certificate ext amb (donor_name d) (amount d) (order_id d) w
    = (Ok fname, w1) ->
    email_enabled cfg (donor_email d) = true ->
    send_email_with_attachment cfg ext (thanks_email ext d fname) w1 = (Ok tt, w2) ->
    certified cfg ext amb p w
      (jsonify 200 (success_result cfg d ("/certificate/" +:+ fname) true None)) w2
| certified_mail_failed d fname w1 w2 e :
    read_donation ext amb p = Ok d ->
    generate_certificate ext amb (donor_name d) (amount d) (order_id d) w
    = (Ok fname, w1) ->
    email_enabled cfg (donor_email d) = true ->
    send_email_with_attachment cfg ext (thanks_email ext d fname) w1 = (Raise e, w2) ->
    certified cfg ext amb p w
      (jsonify 200 (success_result cfg d ("/certificate/" +:+ fname) false (Some e))) w2.

(** A float strictly between -1 and 1 other than zero. *)
Definition fraction (f : spec_float) : Prop :=
  match f with
  | S754_finite _ m e => e < 0 /\ Z.pos m < 2 ^ (- e)
  | _ => False
  end.

(** The [order_data] that [create_order] hands to the gateway. *)
Definition order_data_for (amb : Ambient) (n : Z) : json :=
  JDict [("amount", JInt (n * 100)); ("currency", JStr "INR");
         ("receipt", JStr ("rcpt_" +:+ dec (time_handler amb)));
         ("payment_capture", JInt 1)].

(** [filename] names the entry [n] of the certificate directory: a relative
    path with the single component [n], which is not "..". *)
Definition names_entry (filename n : string) : Prop :=
  is_abs filename = false /\ path_parts filename = [n] /\ n <> "..".

(** The signature check proper passes: the gateway returns on the three
    fields, or, in dummy mode, [simulate] or the signature has the agreed
    value. *)
Definition signature_valid (cfg : Config) (ext : Externals) (p : json) : Prop :=
  if USE_RAZORPAY cfg then
    verify_payment_signature ext (field_or_null "razorpay_order_id" p)
      (field_or_null "razorpay_payment_id" p)
      (field_or_null "razorpay_signature" p) = Ok tt
  else simulate_or_sim_signature p.

(** ** Basic facts about the builtins *)

Lemma is_True_spec v : is_True v = true <-> v = JBool true.
Proof.
  split; [|intros ->; reflexivity].
  destruct v as [|[]| | | | |]; simpl; congruence.
Qed.

Lemma eq_str_spec v s : eq_str v s = true <-> v = JStr s.
Proof.
  destruct v; simpl; try (split; congruence).
  rewrite String.eqb_eq. split; congruence.
Qed.

Lemma py_get_dict d k dflt :
  py_get (JDict d) k dflt = Ok (from_option id dflt (assoc k d)).
Proof. reflexivity. Qed.

Lemma py_get_null_field d k :
  py_get (JDict d) k JNull = Ok (field_or_null k (JDict d)).
Proof. reflexivity. Qed.

Lemma py_get_not_dict p k dflt :
  (forall d, p <> JDict d) -> exists e, py_get p k dflt = Raise e.
Proof. intros Hp. destruct p; simpl; eauto. now destruct (Hp d). Qed.

Lemma dict_or_not p : (exists d, p = JDict d) \/ (forall d, p <> JDict d).
Proof. destruct p; eauto; right; discriminate. Qed.

Lemma truthy_field_Some k p :
  truthy (field_or_null k p) = true ->
  exists v, field k p = Some v /\ truthy v = true.
Proof.
  unfold field_or_null. destruct (field k p) as [v|]; simpl; [eauto|discriminate].
Qed.

Lemma required_present_dict p :
  required_present p -> exists d, p = JDict d.
Proof.
  intros H. apply Forall_cons_1 in H as [H _].
  apply truthy_field_Some in H as (v & H & _).
  destruct p; simpl in H; try discriminate. eauto.
Qed.

Lemma or_empty_truthy v : truthy v = true -> or_empty v = v.
Proof. unfold or_empty. now intros ->. Qed.

Lemma or_empty_dict d v k : assoc k d = Some v -> or_empty (JDict d) = JDict d.
Proof. destruct d; [discriminate | reflexivity]. Qed.

Lemma float_trunc_nonpositive f z :
  nonpositive (JFloat f) -> float_trunc f = Ok z -> z <= 0.
Proof.
  destruct f as [s|s| |s m e]; simpl; intros H [= <-]; try lia.
  subst s. pose proof (Z.shiftl_nonneg (Z.pos m) e). lia.
Qed.

Lemma nonpositive_int ext v z :
  nonpositive v -> py_int ext v = Ok z -> z <= 0.
Proof.
  destruct v; simpl; try contradiction.
  - intros H [= <-]; exact H.
  - apply float_trunc_nonpositive.
Qed.

(** ** [verify_signature] *)

Example verify_signature_sim :
  verify_signature Sample.dummy_cfg Sample.ext (Sample.paid []) = Ok (true, None).
Proof. reflexivity. Qed.

Example verify_signature_list_body :
  verify_signature Sample.dummy_cfg Sample.ext (JList [JInt 1])
  = Ok (false, Some "'list' object has no attribute 'get'").
Proof. reflexivity. Qed.

(** The verdict on a dict, in either mode. *)
Lemma verify_signature_dict cfg ext d :
  let p := JDict d in
  let o := field_or_null "razorpay_order_id" p in
  let i := field_or_null "razorpay_payment_id" p in
  let s := field_or_null "razorpay_signature" p in
  verify_signature cfg ext p =
  Ok (if negb (truthy o && truthy i && truthy s)
      then (false, Some "Missing fields")
      else if USE_RAZORPAY cfg then
        match verify_payment_signature ext o i s with
        | Ok _ => (true, None)
        | Raise e => (false, Some e)
        end
      else if is_True (field_or_null "simulate" p)
              || eq_str s "sim_signature"
      then (true, None)
      else (false, Some "Dummy mode requires simulate:true or sim_signature")).
Proof.
  intros p o i s. unfold verify_signature, verify_signature_body.
  subst p. rewrite !py_get_null_field. cbn [bind]. fold o i s.
  destruct (negb _); [reflexivity|].
  destruct (USE_RAZORPAY cfg).
  - destruct (verify_payment_signature ext o i s); reflexivity.
  - destruct (is_True _); [reflexivity|].
    destruct (eq_str s _); reflexivity.
Qed.

Lemma verify_signature_not_dict cfg ext p :
  (forall d, p <> JDict d) ->
  exists e, verify_signature cfg ext p = Ok (false, Some e).
Proof.
  intros Hp. unfold verify_signature, verify_signature_body.
  destruct (py_get_not_dict p "razorpay_order_id" JNull Hp) as [e ->].
  simpl. eauto.
Qed.

Lemma required_present_bool p :
  required_present p <->
  truthy (field_or_null "razorpay_order_id" p)
  && truthy (field_or_null "razorpay_payment_id" p)
  && truthy (field_or_null "razorpay_signature" p) = true.
Proof.
  unfold required_present, required_fields.
  rewrite !Forall_cons, Forall_nil, !andb_true_iff. tauto.
Qed.

Lemma simulate_or_sim_signature_bool p :
  simulate_or_sim_signature p <->
  is_True (field_or_null "simulate" p)
  || eq_str (field_or_null "razorpay_signature" p) "sim_signature" = true.
Proof.
  unfold simulate_or_sim_signature.
  rewrite orb_true_iff, is_True_spec, eq_str_spec. tauto.
Qed.

Lemma verify_signature_returns cfg ext p :
  exists ok msg, verify_signature cfg ext p = Ok (ok, msg).
Proof.
  unfold verify_signature. destruct (try_except _ _) as [ok msg]. eauto.
Qed.

(** C9.  [verify_signature] returns on every input: it never lets an
    exception out, and what it returns is either [(True, None)] or
    [(False, message)]. *)
Theorem verify_signature_total (cfg : Config) (ext : Externals) (p : json) :
  exists (ok : bool) (msg : option string),
    verify_signature cfg ext p = Ok (ok, msg)
    /\ (ok = true /\ msg = None \/ ok = false /\ exists e, msg = Some e).
Proof.
  unfold verify_signature.
  destruct (verify_signature_body cfg ext p) as [[ok msg]|e] eqn:Hbody; simpl.
  - exists ok, msg. split; [reflexivity|].
    unfold verify_signature_body in Hbody.
    destruct (py_get p "razorpay_order_id" JNull) as [o|]; [|discriminate].
    destruct (py_get p "razorpay_payment_id" JNull) as [i|]; [|discriminate].
    destruct (py_get p "razorpay_signature" JNull) as [s|]; [|discriminate].
    cbn [bind] in Hbody.
    destruct (negb _); [injection Hbody as <- <-; eauto|].
    destruct (USE_RAZORPAY cfg).
    + destruct (verify_payment_signature ext o i s); simpl in Hbody;
        injection Hbody as <- <-; eauto.
    + destruct (py_get p "simulate" JNull) as [sim|]; [|discriminate].
      cbn [bind] in Hbody.
      destruct (is_True sim); [injection Hbody as <- <-; eauto|].
      destruct (eq_str s _); injection Hbody as <- <-; eauto.
  - exists false, (Some e). eauto.
Qed.

(** Closes a goal that compares two computed verdicts. *)
Ltac verdict := intuition (first [discriminate | congruence | eauto]).

(** C1, as stated, fails: a payload with [simulate: true] and nothing else
    is rejected for its missing fields. *)
Lemma simulate_alone_is_rejected :
  simulate_or_sim_signature Sample.simulate_only
  /\ verify_signature Sample.dummy_cfg Sample.ext Sample.simulate_only
     = Ok (false, Some "Missing fields").
Proof. split; [left|]; reflexivity. Qed.

(** C1, amended.  In dummy mode [verify_signature] succeeds exactly on the
    payloads that carry the three required fields, none of them empty, and
    have [simulate] equal to true or [razorpay_signature] equal to
    "sim_signature"; on every other payload it fails with a message. *)
Theorem dummy_verification (cfg : Config) (ext : Externals) (p : json) :
  USE_RAZORPAY cfg = false ->
  (verify_signature cfg ext p = Ok (true, None)
   <-> required_present p /\ simulate_or_sim_signature p)
  /\ (~ (required_present p /\ simulate_or_sim_signature p) ->
      exists e, verify_signature cfg ext p = Ok (false, Some e)).
Proof.
  intros Hmode.
  rewrite required_present_bool, simulate_or_sim_signature_bool.
  destruct (dict_or_not p) as [[d ->]|Hp].
  - rewrite verify_signature_dict, Hmode.
    destruct (truthy _ && truthy _ && truthy _); simpl negb; cbv iota.
    + destruct (is_True _ || eq_str _ _); verdict.
    + verdict.
  - assert (field_or_null "razorpay_order_id" p = JNull) as Hnull.
    { destruct p; try reflexivity. now destruct (Hp d). }
    destruct (verify_signature_not_dict cfg ext p Hp) as [e ->].
    rewrite Hnull. simpl. verdict.
Qed.

Lemma dummy_verification_witness :
  verify_signature Sample.dummy_cfg Sample.ext (Sample.paid []) = Ok (true, None)
  <-> required_present (Sample.paid [])
      /\ simulate_or_sim_signature (Sample.paid []).
Proof.
  exact (proj1 (dummy_verification Sample.dummy_cfg Sample.ext (Sample.paid [])
                  eq_refl)).
Defined.

(** ** [create_order] *)

Example create_order_dummy :
  create_order Sample.dummy_cfg Sample.ext Sample.amb (JDict [("amount", JInt 250)])
  = jsonify 200 [("id", JStr "order_fake_0123456789ab"); ("amount", JInt 25000);
                 ("currency", JStr "INR"); ("key", JStr "rzp_test_dummy");
                 ("mode", JStr "dummy")].
Proof. reflexivity. Qed.

Example create_order_text_amount :
  create_order Sample.dummy_cfg Sample.ext Sample.amb (JDict [("amount", JStr "abc")])
  = jsonify 400 [("error", JStr "Invalid amount")].
Proof. reflexivity. Qed.

(** Without an amount the default 0 is rejected as well. *)
Lemma create_order_missing_amount cfg ext amb d :
  assoc "amount" d = None ->
  create_order cfg ext amb (JDict d)
  = jsonify 400 [("error", JStr "Amount must be > 0")].
Proof.
  intros Hd. unfold create_order, or_empty.
  destruct (truthy (JDict d)); simpl; [rewrite Hd|]; reflexivity.
Qed.

(** A body that is not a dict has no [get]: "Invalid amount". *)
Lemma create_order_not_dict cfg ext amb p :
  truthy p = true -> (forall d, p <> JDict d) ->
  create_order cfg ext amb p = jsonify 400 [("error", JStr "Invalid amount")].
Proof.
  intros Ht Hp. unfold create_order. rewrite (or_empty_truthy _ Ht).
  destruct (py_get_not_dict p "amount" (JInt 0) Hp) as [e ->]. reflexivity.
Qed.

(** C2.  A request whose amount is a number at most zero, or a value that
    [int] reads as an integer at most zero, or a value that [int] does not
    accept, is answered with status 400 and a JSON body that holds just an
    error message: "Invalid amount" when [int] raises, "Amount must be > 0"
    otherwise. *)
Theorem create_order_rejects (cfg : Config) (ext : Externals) (amb : Ambient)
    (d : list (string * json)) (v : json) :
  assoc "amount" d = Some v ->
  nonpositive v \/ unparsable ext v \/ (exists z, py_int ext v = Ok z /\ z <= 0) ->
  create_order cfg ext amb (JDict d)
  = {| status := 400;
       payload :=
         Json (JDict [("error",
                       JStr (match py_int ext v with
                             | Ok _ => "Amount must be > 0"
                             | Raise _ => "Invalid amount"
                             end))]) |}.
Proof.
  intros Hd Hv. unfold create_order.
  rewrite (or_empty_dict _ _ _ Hd), py_get_dict, Hd. cbn [bind from_option id].
  destruct (py_int ext v) as [z|e] eqn:Hint; [|reflexivity].
  assert (Hle : z <= 0).
  { destruct Hv as [Hnp|[[e He]|(z' & Hz & Hle)]].
    - now apply (nonpositive_int ext v).
    - congruence.
    - congruence. }
  apply Z.leb_le in Hle. now rewrite Hle.
Qed.

Lemma create_order_rejects_witness :
  create_order Sample.dummy_cfg Sample.ext Sample.amb
    (JDict [("amount", JStr "-5")])
  = {| status := 400;
       payload :=
         Json (JDict [("error",
                       JStr (match py_int Sample.ext (JStr "-5") with
                             | Ok _ => "Amount must be > 0"
                             | Raise _ => "Invalid amount"
                             end))]) |}.
Proof.
  apply (create_order_rejects Sample.dummy_cfg Sample.ext Sample.amb
           [("amount", JStr "-5")] (JStr "-5")).
  - reflexivity.
  - right. right. exists (-5). split; [reflexivity|lia].
Defined.

(** ** [verify_payment] *)

Example verify_payment_dummy :
  fst (verify_payment Sample.dummy_cfg Sample.ext Sample.amb
         (Sample.paid [("name", JStr "Asha"); ("amount", JInt 500)])
         Sample.empty_world)
  = Ok (jsonify 200
          [("status", JStr "success"); ("message", JStr "Dummy payment accepted");
           ("payment", JDict [("order_id", JStr "order_1"); ("amount", JInt 500)]);
           ("certificate_url", JStr "/certificate/certificate_order_1_1700000000.pdf");
           ("email_sent", JBool false); ("email_error", JNull)]).
Proof. reflexivity. Qed.

(** An accepted payload carries the three required fields. *)
Lemma verify_signature_accepts_required cfg ext p msg :
  verify_signature cfg ext p = Ok (true, msg) -> required_present p.
Proof.
  intros Hv. destruct (dict_or_not p) as [[d ->]|Hp].
  - rewrite verify_signature_dict in Hv. apply required_present_bool.
    destruct (truthy _ && truthy _ && truthy _); [reflexivity|].
    simpl in Hv. congruence.
  - destruct (verify_signature_not_dict cfg ext p Hp) as [e He]. congruence.
Qed.

Lemma missing_not_present p : missing_required p -> ~ required_present p.
Proof.
  unfold missing_required, required_present. rewrite Exists_exists, Forall_forall.
  intros (k & Hk & Hnone) Hall. specialize (Hall k Hk).
  unfold field_or_null in Hall. rewrite Hnone in Hall. discriminate.
Qed.

Lemma missing_required_or_empty p :
  missing_required p -> missing_required (or_empty p).
Proof.
  unfold or_empty. destruct (truthy p); [auto|].
  intros _. apply Exists_cons_hd. reflexivity.
Qed.

Lemma not_present_rejected cfg ext p :
  ~ required_present p ->
  exists e, verify_signature cfg ext p = Ok (false, Some e).
Proof.
  intros Hnp. destruct (dict_or_not p) as [[d ->]|Hp].
  - rewrite verify_signature_dict. rewrite required_present_bool in Hnp.
    destruct (truthy _ && truthy _ && truthy _); [now destruct Hnp|].
    simpl. eauto.
  - now apply verify_signature_not_dict.
Qed.

(** A request without a required field, or with a signature that does not
    check, is not accepted. *)
Lemma verify_signature_rejects cfg ext p :
  missing_required p \/ signature_invalid cfg ext p ->
  exists e, verify_signature cfg ext (or_empty p) = Ok (false, Some e).
Proof.
  intros [Hmiss|Hinv].
  - apply not_present_rejected, missing_not_present, missing_required_or_empty, Hmiss.
  - unfold or_empty. destruct (truthy p) eqn:Ht.
    + destruct (dict_or_not p) as [[d ->]|Hp];
        [|now apply verify_signature_not_dict].
      rewrite verify_signature_dict. unfold signature_invalid in Hinv.
      destruct (negb _); [eauto|].
      destruct (USE_RAZORPAY cfg).
      * destruct Hinv as [e ->]. eauto.
      * rewrite simulate_or_sim_signature_bool in Hinv.
        destruct (is_True _ || eq_str _ _); [now destruct Hinv|eauto].
    + rewrite verify_signature_dict. simpl. eauto.
Qed.

(** The handler answers: no exception leaves [verify_payment]. *)
Lemma verify_payment_answers cfg ext amb req w :
  exists r w', verify_payment cfg ext amb req w = (Ok r, w').
Proof.
  unfold verify_payment, verify_signature. simpl.
  destruct (try_except _ _) as [[|] err]; [|eauto].
  destruct (certify_and_mail _ _ _ _ _) as [[r|e] w']; eauto.
Qed.

Lemma verify_payment_rejected cfg ext amb req w err :
  verify_signature cfg ext (or_empty req) = Ok (false, err) ->
  verify_payment cfg ext amb req w =
  (Ok (jsonify 400 [("error", JStr "Signature verification failed");
                    ("details", option_json err)]), w).
Proof. intros Hv. unfold verify_payment. now rewrite Hv. Qed.

Lemma verify_payment_accepted cfg ext amb req w msg :
  verify_signature cfg ext (or_empty req) = Ok (true, msg) ->
  verify_payment cfg ext amb req w =
  match certify_and_mail cfg ext amb (or_empty req) w with
  | (Raise e, w') =>
      (Ok (jsonify 500 [("error", JStr "Internal error generating certificate");
                        ("details", JStr e)]), w')
  | (Ok r, w') => (Ok r, w')
  end.
Proof. intros Hv. unfold verify_payment. now rewrite Hv. Qed.

Lemma certify_and_mail_ok cfg ext amb p w r w' :
  certify_and_mail cfg ext amb p w = (Ok r, w') <-> certified cfg ext amb p w r w'.
Proof.
  unfold certify_and_mail. split.
  - destruct (read_donation ext amb p) as [d|e] eqn:Hd; [|discriminate].
    destruct (generate_certificate _ _ _ _ _ _) as [[fname|e] w1] eqn:Hg;
      [|discriminate].
    destruct (email_enabled cfg (donor_email d)) eqn:Hen.
    + destruct (send_email_with_attachment _ _ _ _) as [[[]|e] w2] eqn:Hs;
        intros [= <- <-]; econstructor; eauto.
    + intros [= <- <-]. econstructor; eauto.
  - intros [d fname w1 Hd Hg Hen|d fname w1 w2 Hd Hg Hen Hs
            |d fname w1 w2 e Hd Hg Hen Hs];
      rewrite Hd, Hg, Hen; [reflexivity| |]; rewrite Hs; reflexivity.
Qed.

(** A response with status 200 comes from a completed [try] block. *)
Lemma verify_payment_success cfg ext amb req w r w' :
  verify_payment cfg ext amb req w = (Ok r, w') -> status r = 200 ->
  (exists msg, verify_signature cfg ext (or_empty req) = Ok (true, msg))
  /\ certified cfg ext amb (or_empty req) w r w'.
Proof.
  intros Hvp Hst.
  destruct (verify_signature_returns cfg ext (or_empty req))
    as ([] & msg & Hv).
  - rewrite (verify_payment_accepted _ _ _ _ _ _ Hv) in Hvp.
    split; [eauto|]. apply certify_and_mail_ok.
    destruct (certify_and_mail _ _ _ _ _) as [[r0|e] w0].
    + congruence.
    + injection Hvp as <- <-. discriminate.
  - rewrite (verify_payment_rejected _ _ _ _ _ _ Hv) in Hvp.
    injection Hvp as <- <-. discriminate.
Qed.

(** An accepted request is a dict, and [or {}] leaves it alone. *)
Lemma accepted_is_dict cfg ext req msg :
  verify_signature cfg ext (or_empty req) = Ok (true, msg) ->
  exists dd, req = JDict dd /\ or_empty req = JDict dd
             /\ required_present (JDict dd).
Proof.
  intros Hv. pose proof (verify_signature_accepts_required _ _ _ _ Hv) as Hreq.
  unfold or_empty in *. destruct (truthy req).
  - destruct (required_present_dict _ Hreq) as [dd ->]. eauto.
  - apply required_present_bool in Hreq. discriminate.
Qed.

(** What [read_donation] takes from a dict. *)
Lemma read_donation_dict ext amb dd d :
  read_donation ext amb (JDict dd) = Ok d ->
  donor_name d = from_option id (JStr "Donor") (assoc "name" dd)
  /\ donor_email d = field_or_null "email" (JDict dd)
  /\ py_int ext (from_option id (JInt 0) (assoc "amount" dd)) = Ok (amount d)
  /\ order_id d =
     from_option id
       (from_option id (JStr ("order_" +:+ dec (time_handler amb)))
          (assoc "order_id" dd))
       (assoc "razorpay_order_id" dd).
Proof.
  unfold read_donation. rewrite !py_get_dict. cbn [bind].
  destruct (py_int ext _) as [a|e]; [|discriminate].
  cbn [bind]. intros [= <-]. simpl. auto.
Qed.

Lemma read_donation_ok ext amb dd a :
  py_int ext (from_option id (JInt 0) (assoc "amount" dd)) = Ok a ->
  read_donation ext amb (JDict dd)
  = Ok {| donor_name := from_option id (JStr "Donor") (assoc "name" dd);
          donor_email := field_or_null "email" (JDict dd);
          amount := a;
          order_id :=
            from_option id
              (from_option id (JStr ("order_" +:+ dec (time_handler amb)))
                 (assoc "order_id" dd))
              (assoc "razorpay_order_id" dd) |}.
Proof.
  intros Ha. unfold read_donation. rewrite !py_get_dict. cbn [bind].
  rewrite Ha. reflexivity.
Qed.

Lemma read_donation_bad_amount ext amb dd v :
  assoc "amount" dd = Some v -> unparsable ext v ->
  exists e, read_donation ext amb (JDict dd) = Raise e.
Proof.
  intros Hv [e He]. exists e. unfold read_donation.
  rewrite !py_get_dict, Hv. cbn [bind from_option id]. now rewrite He.
Qed.

Lemma generate_certificate_attempts ext amb name a oid w res w1 :
  generate_certificate ext amb name a oid w = (res, w1) ->
  send_attempts w1 = send_attempts w.
Proof.
  unfold generate_certificate.
  destruct oid; try (intros [= _ <-]; reflexivity).
  destruct (canvas_save _ _ _ _ _ _); intros [= _ <-]; reflexivity.
Qed.

(** A successful [generate_certificate] was given a str, named the file
    after it and the clock, and stored what the canvas saved. *)
Lemma generate_certificate_ok ext amb name a oid w fname w1 :
  generate_certificate ext amb name a oid w = (Ok fname, w1) ->
  exists o data,
    oid = JStr o
    /\ fname = certificate_filename o (time_cert amb)
    /\ canvas_save ext fname name a o (utc_date amb) = Ok data
    /\ files w1 = <[fname := data]> (files w).
Proof.
  unfold generate_certificate.
  destruct oid as [| | | |o| |]; try discriminate.
  destruct (canvas_save _ _ _ _ _ _) as [data|e] eqn:Hc; [|discriminate].
  intros [= <- <-]. exists o, data. auto.
Qed.

Lemma send_email_files cfg ext m w res w2 :
  send_email_with_attachment cfg ext m w = (res, w2) -> files w2 = files w.
Proof.
  unfold send_email_with_attachment.
  destruct (files w !! attachment_path m); intros [= _ <-]; reflexivity.
Qed.

Lemma email_disabled cfg p :
  field "email" p = None \/ SMTP_HOST cfg = "" \/ SMTP_USER cfg = ""
  \/ SMTP_PASS cfg = "" ->
  email_enabled cfg (field_or_null "email" p) = false.
Proof.
  unfold email_enabled, field_or_null.
  intros [->|[->|[->| ->]]]; simpl;
    rewrite ?andb_false_r; reflexivity.
Qed.

(** A payload with the required fields and a signature that checks is
    accepted. *)
Lemma valid_signature_accepted cfg ext p :
  required_present p -> signature_valid cfg ext p ->
  verify_signature cfg ext p = Ok (true, None).
Proof.
  intros Hreq Hval. destruct (required_present_dict _ Hreq) as [d ->].
  rewrite verify_signature_dict. apply required_present_bool in Hreq.
  rewrite Hreq. simpl negb. cbv iota. unfold signature_valid in Hval.
  destruct (USE_RAZORPAY cfg).
  - now rewrite Hval.
  - apply simulate_or_sim_signature_bool in Hval. now rewrite Hval.
Qed.

(** A rejected payload lacks a required field or fails the check. *)
Lemma rejected_is_invalid cfg ext req err :
  verify_signature cfg ext (or_empty req) = Ok (false, err) ->
  ~ required_present req \/ signature_invalid cfg ext req.
Proof.
  intros Hv.
  destruct (truthy (field_or_null "razorpay_order_id" req)
            && truthy (field_or_null "razorpay_payment_id" req)
            && truthy (field_or_null "razorpay_signature" req)) eqn:Hb.
  - right. apply required_present_bool in Hb as Hreq.
    destruct (required_present_dict _ Hreq) as [d ->].
    assert (Hor : or_empty (JDict d) = JDict d).
    { apply Forall_cons_1 in Hreq as [Ho _].
      apply truthy_field_Some in Ho as (v & Hf & _).
      exact (or_empty_dict _ _ _ Hf). }
    rewrite Hor, verify_signature_dict, Hb in Hv. simpl negb in Hv.
    cbv iota in Hv. unfold signature_invalid.
    destruct (USE_RAZORPAY cfg).
    + destruct (verify_payment_signature ext _ _ _) as [u|e]; [discriminate|eauto].
    + rewrite simulate_or_sim_signature_bool.
      destruct (is_True _ || eq_str _ _); [discriminate|]. discriminate.
  - left. rewrite required_present_bool, Hb. discriminate.
Qed.

(** An accepted request whose amount is readable, whose order id is a str
    and whose certificate is saved is answered 200. *)
Lemma certification_succeeds cfg ext amb dd w msg a o data :
  verify_signature cfg ext (JDict dd) = Ok (true, msg) ->
  py_int ext (from_option id (JInt 0) (assoc "amount" dd)) = Ok a ->
  assoc "razorpay_order_id" dd = Some (JStr o) ->
  canvas_save ext (certificate_filename o (time_cert amb))
    (from_option id (JStr "Donor") (assoc "name" dd)) a o (utc_date amb)
  = Ok data ->
  exists r w',
    verify_payment cfg ext amb (JDict dd) w = (Ok r, w') /\ status r = 200.
Proof.
  intros Hv Ha Ho Hsave.
  pose proof (or_empty_dict _ _ _ Ho) as Hor.
  rewrite <- Hor in Hv.
  rewrite (verify_payment_accepted _ _ _ _ _ _ Hv), Hor.
  unfold certify_and_mail.
  rewrite (read_donation_ok _ amb _ _ Ha), Ho.
  cbn [from_option id donor_name amount order_id donor_email].
  unfold generate_certificate. rewrite Hsave.
  destruct (email_enabled cfg _).
  - destruct (send_email_with_attachment _ _ _ _) as [[[]|e] w2];
      eexists _, _; split; reflexivity.
  - eexists _, _. split; reflexivity.
Qed.

(** C5.  [verify_payment] always answers.  A request that lacks a required
    field, or whose signature does not check, gets status 400 with a JSON
    error body, and status 400 is given for no other reason than an absent
    or empty required field or a signature that does not check.  A success
    response has exactly the keys status, message, payment,
    certificate_url, email_sent and email_error, and a request with the
    required fields and a signature that checks does get that response as
    soon as its amount is readable, its order id is a str and the
    certificate is saved. *)
Theorem verify_payment_contract (cfg : Config) (ext : Externals)
    (amb : Ambient) (req : json) (w : World) :
  exists r w',
    verify_payment cfg ext amb req w = (Ok r, w')
    /\ (missing_required req \/ signature_invalid cfg ext req ->
        status r = 400
        /\ exists e, payload r
                     = Json (JDict [("error", JStr "Signature verification failed");
                                    ("details", JStr e)]))
    /\ (status r = 400 ->
        ~ required_present req \/ signature_invalid cfg ext req)
    /\ (status r = 200 -> body_keys r = Some success_keys)
    /\ (forall dd a o data,
        req = JDict dd ->
        required_present req ->
        signature_valid cfg ext req ->
        py_int ext (from_option id (JInt 0) (assoc "amount" dd)) = Ok a ->
        assoc "razorpay_order_id" dd = Some (JStr o) ->
        canvas_save ext (certificate_filename o (time_cert amb))
          (from_option id (JStr "Donor") (assoc "name" dd)) a o (utc_date amb)
        = Ok data ->
        status r = 200 /\ body_keys r = Some success_keys).
Proof.
  destruct (verify_payment_answers cfg ext amb req w) as (r & w' & Hvp).
  assert (Hkeys : status r = 200 -> body_keys r = Some success_keys).
  { intros Hst. destruct (verify_payment_success _ _ _ _ _ _ _ Hvp Hst) as [_ Hc].
    destruct Hc; reflexivity. }
  exists r, w'. split; [exact Hvp|]. split; [|split; [|split; [exact Hkeys|]]].
  - intros Hbad. destruct (verify_signature_rejects _ _ _ Hbad) as [e He].
    rewrite (verify_payment_rejected _ _ _ _ _ _ He) in Hvp.
    injection Hvp as <- <-. simpl. eauto.
  - intros Hst.
    destruct (verify_signature_returns cfg ext (or_empty req)) as ([] & msg & Hv).
    + rewrite (verify_payment_accepted _ _ _ _ _ _ Hv) in Hvp.
      destruct (certify_and_mail _ _ _ _ _) as [[r0|e] w0] eqn:Hc;
        injection Hvp as <- <-; [|discriminate].
      apply certify_and_mail_ok in Hc. destruct Hc; discriminate.
    + exact (rejected_is_invalid _ _ _ _ Hv).
  - intros dd a o data -> Hreq Hval Ha Ho Hsave.
    pose proof (valid_signature_accepted _ _ _ Hreq Hval) as Hv.
    destruct (certification_succeeds cfg ext amb dd w None a o data Hv Ha Ho Hsave)
      as (r1 & w1 & Hvp1 & Hst).
    assert (r1 = r) as -> by congruence. auto.
Qed.

Lemma verify_payment_contract_witness :
  (exists r w',
     verify_payment Sample.dummy_cfg Sample.ext Sample.amb Sample.simulate_only
       Sample.empty_world = (Ok r, w')
     /\ status r = 400)
  /\ (exists r w',
       verify_payment Sample.dummy_cfg Sample.ext Sample.amb
         (Sample.paid [("amount", JInt 500)]) Sample.empty_world = (Ok r, w')
       /\ status r = 200
       /\ body_keys r = Some success_keys).
Proof.
  split.
  - destruct (verify_payment_contract Sample.dummy_cfg Sample.ext Sample.amb
                Sample.simulate_only Sample.empty_world)
      as (r & w' & Hvp & Hbad & _).
    exists r, w'. split; [exact Hvp|]. apply Hbad.
    left. apply Exists_cons_hd. reflexivity.
  - destruct (verify_payment_contract Sample.dummy_cfg Sample.ext Sample.amb
                (Sample.paid [("amount", JInt 500)]) Sample.empty_world)
      as (r & w' & Hvp & _ & _ & _ & Hgood).
    exists r, w'. split; [exact Hvp|].
    apply (Hgood
             [("razorpay_order_id", JStr "order_1");
              ("razorpay_payment_id", JStr "pay_1");
              ("razorpay_signature", JStr "sim_signature");
              ("amount", JInt 500)]
             500 "order_1" Sample.pdf_bytes).
    + reflexivity.
    + apply required_present_bool. reflexivity.
    + right. reflexivity.
    + reflexivity.
    + reflexivity.
    + reflexivity.
Defined.

(** C8.  In a success response the order id of the payment object is the
    [razorpay_order_id] of the request, which is present and not empty:
    neither the [order_id] field nor the clock takes part. *)
Theorem reported_order_id (cfg : Config) (ext : Externals) (amb : Ambient)
    (req : json) (w : World) (r : response) (w' : World) :
  verify_payment cfg ext amb req w = (Ok r, w') ->
  status r = 200 ->
  exists v,
    field "razorpay_order_id" req = Some v
    /\ truthy v = true
    /\ payment_order_id r = Some v.
Proof.
  intros Hvp Hst.
  destruct (verify_payment_success _ _ _ _ _ _ _ Hvp Hst) as [[msg Hv] Hc].
  destruct (accepted_is_dict _ _ _ _ Hv) as (dd & -> & Hor & Hreq).
  rewrite Hor in Hc.
  apply Forall_cons_1 in Hreq as [Ho _].
  apply truthy_field_Some in Ho as (v & Hf & Ht).
  exists v. split; [exact Hf|]. split; [exact Ht|].
  simpl in Hf.
  assert (Hoid : forall d, read_donation ext amb (JDict dd) = Ok d -> order_id d = v).
  { intros d Hd. apply read_donation_dict in Hd as (_ & _ & _ & ->).
    now rewrite Hf. }
  destruct Hc as [d ? ? Hd|d ? ? ? Hd|d ? ? ? ? Hd];
    rewrite <- (Hoid d Hd); reflexivity.
Qed.

Lemma reported_order_id_witness :
  exists v,
    field "razorpay_order_id" (Sample.paid [("order_id", JStr "other")]) = Some v
    /\ truthy v = true
    /\ payment_order_id
         (jsonify 200
            (success_result Sample.dummy_cfg
               {| donor_name := JStr "Donor"; donor_email := JNull; amount := 0;
                  order_id := JStr "order_1" |}
               "/certificate/certificate_order_1_1700000000.pdf" false None))
       = Some v.
Proof.
  eapply (reported_order_id Sample.dummy_cfg Sample.ext Sample.amb
            (Sample.paid [("order_id", JStr "other")]) Sample.empty_world).
  - reflexivity.
  - reflexivity.
Defined.

(** C10.  For a verified request without an email field, or with one of
    SMTP_HOST, SMTP_USER, SMTP_PASS unset, [send_email_with_attachment] is
    not called, and the success response reports [email_sent] false and
    [email_error] null. *)
Theorem no_mail_without_address_or_account (cfg : Config) (ext : Externals)
    (amb : Ambient) (req : json) (w : World) (msg : option string)
    (r : response) (w' : World) :
  verify_signature cfg ext (or_empty req) = Ok (true, msg) ->
  field "email" req = None \/ SMTP_HOST cfg = "" \/ SMTP_USER cfg = ""
  \/ SMTP_PASS cfg = "" ->
  verify_payment cfg ext amb req w = (Ok r, w') ->
  send_attempts w' = send_attempts w
  /\ (status r = 200 ->
      body_field "email_sent" r = Some (JBool false)
      /\ body_field "email_error" r = Some JNull).
Proof.
  intros Hv Hoff Hvp.
  rewrite (verify_payment_accepted _ _ _ _ _ _ Hv) in Hvp.
  destruct (accepted_is_dict _ _ _ _ Hv) as (dd & -> & Hor & _).
  rewrite Hor in Hvp. unfold certify_and_mail in Hvp.
  destruct (read_donation ext amb (JDict dd)) as [d|e] eqn:Hd.
  - pose proof (read_donation_dict _ _ _ _ Hd) as (_ & Hemail & _).
    rewrite Hemail, (email_disabled _ _ Hoff) in Hvp.
    destruct (generate_certificate _ _ _ _ _ _) as [[fname|e] w1] eqn:Hg;
      apply generate_certificate_attempts in Hg;
      injection Hvp as <- <-; split; auto; discriminate.
  - injection Hvp as <- <-. split; [reflexivity|discriminate].
Qed.

Lemma no_mail_without_address_or_account_witness :
  exists r w',
    verify_payment Sample.mail_cfg Sample.ext Sample.amb (Sample.paid [])
      Sample.empty_world = (Ok r, w')
    /\ status r = 200
    /\ send_attempts w' = []
    /\ body_field "email_sent" r = Some (JBool false)
    /\ body_field "email_error" r = Some JNull.
Proof.
  destruct (verify_payment_answers Sample.mail_cfg Sample.ext Sample.amb
              (Sample.paid []) Sample.empty_world) as (r & w' & Hvp).
  exists r, w'.
  destruct (no_mail_without_address_or_account Sample.mail_cfg Sample.ext
              Sample.amb (Sample.paid []) Sample.empty_world None r w'
              eq_refl (or_introl eq_refl) Hvp) as [Hlog Hbody].
  assert (Hst : status r = 200).
  { vm_compute in Hvp. injection Hvp as <- _. reflexivity. }
  destruct (Hbody Hst) as [Hsent Herr]. auto.
Defined.

(** C3.  When the email step of a verified request raises, the handler
    still answers with status 200: [email_sent] is false, [email_error] is
    the text of the exception, and the certificate named in the response is
    in the certificate directory. *)
Theorem email_failure_is_not_fatal (cfg : Config) (ext : Externals)
    (amb : Ambient) (req : json) (w : World) (msg : option string)
    (d : Donation) (fname : string) (w1 : World) (e : string) (w2 : World) :
  verify_signature cfg ext (or_empty req) = Ok (true, msg) ->
  read_donation ext amb (or_empty req) = Ok d ->
  generate_certificate ext amb (donor_name d) (amount d) (order_id d) w
  = (Ok fname, w1) ->
  email_enabled cfg (donor_email d) = true ->
  send_email_with_attachment cfg ext (thanks_email ext d fname) w1
  = (Raise e, w2) ->
  exists r data,
    verify_payment cfg ext amb req w = (Ok r, w2)
    /\ status r = 200
    /\ body_field "status" r = Some (JStr "success")
    /\ body_field "email_sent" r = Some (JBool false)
    /\ body_field "email_error" r = Some (JStr e)
    /\ body_field "certificate_url" r = Some (JStr ("/certificate/" +:+ fname))
    /\ files w2 !! fname = Some data.
Proof.
  intros Hv Hd Hg Hen Hs.
  apply generate_certificate_ok in Hg as Hfile.
  destruct Hfile as (o & data & _ & _ & _ & Hfiles).
  exists (jsonify 200 (success_result cfg d ("/certificate/" +:+ fname) false (Some e))),
    data.
  split.
  { rewrite (verify_payment_accepted _ _ _ _ _ _ Hv).
    unfold certify_and_mail. now rewrite Hd, Hg, Hen, Hs. }
  repeat split.
  rewrite (send_email_files _ _ _ _ _ _ Hs), Hfiles. apply lookup_insert_eq.
Qed.

Lemma email_failure_is_not_fatal_witness :
  exists r data,
    verify_payment Sample.mail_cfg Sample.ext_smtp_down Sample.amb
      (Sample.paid [("email", JStr "asha@example.com"); ("amount", JInt 500)])
      Sample.empty_world
    = (Ok r,
       {| files := {["certificate_order_1_1700000000.pdf" := Sample.pdf_bytes]};
          send_attempts :=
            [thanks_email Sample.ext_smtp_down
               {| donor_name := JStr "Donor";
                  donor_email := JStr "asha@example.com";
                  amount := 500; order_id := JStr "order_1" |}
               "certificate_order_1_1700000000.pdf"] |})
    /\ status r = 200
    /\ body_field "status" r = Some (JStr "success")
    /\ body_field "email_sent" r = Some (JBool false)
    /\ body_field "email_error" r = Some (JStr "[Errno 111] Connection refused")
    /\ body_field "certificate_url" r
       = Some (JStr "/certificate/certificate_order_1_1700000000.pdf")
    /\ files
         {| files := {["certificate_order_1_1700000000.pdf" := Sample.pdf_bytes]};
            send_attempts :=
              [thanks_email Sample.ext_smtp_down
                 {| donor_name := JStr "Donor";
                    donor_email := JStr "asha@example.com";
                    amount := 500; order_id := JStr "order_1" |}
                 "certificate_order_1_1700000000.pdf"] |}
       !! "certificate_order_1_1700000000.pdf" = Some data.
Proof.
  eapply (email_failure_is_not_fatal Sample.mail_cfg Sample.ext_smtp_down
            Sample.amb _ Sample.empty_world None
            {| donor_name := JStr "Donor"; donor_email := JStr "asha@example.com";
               amount := 500; order_id := JStr "order_1" |}
            "certificate_order_1_1700000000.pdf"
            {| files := {["certificate_order_1_1700000000.pdf" := Sample.pdf_bytes]};
               send_attempts := [] |}).
  - reflexivity.
  - reflexivity.
  - reflexivity.
  - reflexivity.
  - reflexivity.
Defined.

(** C6, on the code.  A verified request whose amount [int] does not accept
    is answered with status 500 and the text "Internal error generating
    certificate", where [create_order] answers 400 "Invalid amount". *)
Theorem unparsable_amount_reported_as_internal (cfg : Config)
    (ext : Externals) (amb : Ambient) (req : json) (w : World)
    (msg : option string) (v : json) :
  verify_signature cfg ext (or_empty req) = Ok (true, msg) ->
  field "amount" req = Some v ->
  unparsable ext v ->
  exists e,
    verify_payment cfg ext amb req w
    = (Ok {| status := 500;
             payload := Json (JDict [("error", JStr "Internal error generating certificate");
                                     ("details", JStr e)]) |}, w).
Proof.
  intros Hv Hf Hbad.
  rewrite (verify_payment_accepted _ _ _ _ _ _ Hv).
  destruct (accepted_is_dict _ _ _ _ Hv) as (dd & -> & -> & _).
  destruct (read_donation_bad_amount ext amb dd v Hf Hbad) as [e He].
  exists e. unfold certify_and_mail. now rewrite He.
Qed.

Lemma unparsable_amount_reported_as_internal_witness :
  exists e,
    verify_payment Sample.dummy_cfg Sample.ext Sample.amb
      (Sample.paid [("amount", JStr "abc")]) Sample.empty_world
    = (Ok {| status := 500;
             payload := Json (JDict [("error", JStr "Internal error generating certificate");
                                     ("details", JStr e)]) |},
       Sample.empty_world).
Proof.
  apply (unparsable_amount_reported_as_internal Sample.dummy_cfg Sample.ext
           Sample.amb (Sample.paid [("amount", JStr "abc")]) Sample.empty_world
           None (JStr "abc")).
  - reflexivity.
  - reflexivity.
  - eexists. reflexivity.
Defined.

(** ** Certificate files *)

Example certificate_filename_slash :
  certificate_filename "ord/7" 1700000000 = "certificate_ord_7_1700000000.pdf".
Proof. reflexivity. Qed.

Lemma has_char_app c a b :
  has_char c (a +:+ b) = has_char c a || has_char c b.
Proof. induction a as [|x a IH]; simpl; [|rewrite IH, orb_assoc]; reflexivity. Qed.

Lemma dec_no_slash z : has_char "/" (dec z) = false.
Proof.
  unfold dec.
  assert (H : forall d, has_char "/" (NilEmpty.string_of_uint d) = false)
    by (induction d; simpl; auto).
  destruct (Z.to_int z); simpl; auto.
Qed.

Lemma replace_slash_no_slash s : has_char "/" (replace_slash s) = false.
Proof.
  induction s as [|c s IH]; cbn [replace_slash has_char]; [reflexivity|].
  rewrite IH, orb_false_r.
  destruct (Ascii.eqb_spec c "/") as [->|Hc]; [reflexivity|].
  apply Ascii.eqb_neq. congruence.
Qed.

Lemma certificate_filename_no_slash o t :
  has_char "/" (certificate_filename o t) = false.
Proof.
  unfold certificate_filename.
  rewrite !has_char_app, replace_slash_no_slash, dec_no_slash. reflexivity.
Qed.

(** *** Path resolution *)

Lemma path_split_plain s : has_char "/" s = false -> path_split s = [s].
Proof.
  induction s as [|c s IH]; cbn [has_char path_split]; [reflexivity|].
  intros H. apply orb_false_elim in H as [Hc Hs].
  rewrite Ascii.eqb_sym in Hc. now rewrite Hc, (IH Hs).
Qed.

Lemma is_abs_plain s : has_char "/" s = false -> is_abs s = false.
Proof.
  destruct s as [|c s]; cbn [has_char is_abs]; [reflexivity|].
  intros H. apply orb_false_elim in H as [Hc _]. now rewrite Ascii.eqb_sym.
Qed.

(** A name without "/" other than "", "." and ".." names itself. *)
Lemma names_entry_plain n :
  has_char "/" n = false -> n <> "" -> n <> "." -> n <> ".." -> names_entry n n.
Proof.
  intros Hn He Hd Hdd. split; [now apply is_abs_plain|]. split; [|exact Hdd].
  unfold path_parts. rewrite (path_split_plain _ Hn). cbn [List.filter].
  apply String.eqb_neq in He, Hd. now rewrite He, Hd.
Qed.

Lemma certificate_filename_names_itself o t :
  names_entry (certificate_filename o t) (certificate_filename o t).
Proof.
  apply names_entry_plain; [apply certificate_filename_no_slash|..];
    unfold certificate_filename; cbn [String.append]; discriminate.
Qed.




(** What is served under a path that names an entry. *)
Lemma serve_certificate_entry filename n w :
  names_entry filename n ->
  serve_certificate filename w =
  match files w !! n with
  | Some data => {| status := 200; payload := Attachment n data |}
  | None => abort404
  end.
Proof.
  intros (Habs & Hparts & Hn). apply String.eqb_neq in Hn.
  unfold serve_certificate, path_exists. rewrite Habs, Hparts, Hn.
  destruct (files w !! n) as [data|] eqn:Hfile.
  - rewrite bool_decide_eq_true_2 by eauto.
    unfold send_from_directory, safe_join. rewrite Habs, Hparts.
    cbn [normpath_go]. rewrite Hn. cbn [rev app]. now rewrite Hn, Hfile.
  - rewrite bool_decide_eq_false_2; [reflexivity|]. now intros [? ?].
Qed.


Example serve_certificate_dot_slash :
  serve_certificate "./certificate_order_1_1700000000.pdf"
    {| files := {["certificate_order_1_1700000000.pdf" := Sample.pdf_bytes]};
       send_attempts := [] |}
  = {| status := 200;
       payload := Attachment "certificate_order_1_1700000000.pdf" Sample.pdf_bytes |}.
Proof. vm_compute. reflexivity. Qed.

Example serve_certificate_through_parent :
  serve_certificate "../certificates/certificate_order_1_1700000000.pdf"
    {| files := {["certificate_order_1_1700000000.pdf" := Sample.pdf_bytes]};
       send_attempts := [] |}
  = abort404.
Proof. vm_compute. reflexivity. Qed.



(** Strings that agree up to the last occurrence of a character agree on
    both sides of it. *)
Lemma split_at_last c a1 r1 a2 r2 :
  has_char c r1 = false -> has_char c r2 = false ->
  a1 +:+ String c r1 = a2 +:+ String c r2 -> a1 = a2 /\ r1 = r2.
Proof.
  intros H1 H2. revert a2.
  induction a1 as [|x a1 IH]; intros [|y a2]; simpl; intros Heq.
  - injection Heq as ->. auto.
  - injection Heq as <- ->. rewrite has_char_app in H1. simpl in H1.
    rewrite Ascii.eqb_refl, orb_true_r in H1. discriminate.
  - injection Heq as -> <-. rewrite has_char_app in H2. simpl in H2.
    rewrite Ascii.eqb_refl, orb_true_r in H2. discriminate.
  - injection Heq as -> Hrest. destruct (IH _ Hrest) as [-> ->]. auto.
Qed.

Lemma string_of_uint_plain c d :
  c = "_"%char \/ c = "."%char ->
  has_char c (NilEmpty.string_of_uint d) = false.
Proof. intros [-> | ->]; induction d; simpl; auto. Qed.

Lemma dec_plain c z :
  c = "_"%char \/ c = "."%char -> has_char c (dec z) = false.
Proof.
  intros Hc. unfold dec. destruct (Z.to_int z) as [d|d]; simpl.
  - now apply string_of_uint_plain.
  - rewrite (string_of_uint_plain c d Hc). now destruct Hc as [-> | ->].
Qed.

Lemma dec_inj z1 z2 : dec z1 = dec z2 -> z1 = z2.
Proof.
  unfold dec. intros H.
  apply (f_equal NilEmpty.int_of_string) in H.
  rewrite !NilEmpty.isi in H. injection H as H.
  now rewrite <- (DecimalZ.of_to z1), <- (DecimalZ.of_to z2), H.
Qed.

(** Two names built by [certificate_filename] coincide only when the
    sanitised order ids and the seconds coincide. *)
Lemma certificate_filename_inj o1 t1 o2 t2 :
  certificate_filename o1 t1 = certificate_filename o2 t2 ->
  replace_slash o1 = replace_slash o2 /\ t1 = t2.
Proof.
  unfold certificate_filename. intros H.
  apply (inj (String.app "certificate_")) in H.
  change ("_" +:+ ?x) with (String "_" x) in H.
  apply split_at_last in H as [Ho Ht].
  - split; [exact Ho|].
    change (".pdf") with (String "." "pdf") in Ht.
    apply split_at_last in Ht as [Ht _]; [now apply dec_inj|reflexivity..].
  - rewrite has_char_app, dec_plain; auto.
  - rewrite has_char_app, dec_plain; auto.
Qed.

(** C7, as stated, fails: two certificates for the same order written
    within one second get the same file name, and the second replaces the
    first. *)
Lemma same_second_same_filename :
  generate_certificate Sample.ext Sample.amb (JStr "Asha") 500 (JStr "order_1")
    Sample.empty_world
  = (Ok "certificate_order_1_1700000000.pdf",
     {| files := {["certificate_order_1_1700000000.pdf" := Sample.pdf_bytes]};
        send_attempts := [] |})
  /\ generate_certificate Sample.ext Sample.amb (JStr "Ravi") 900 (JStr "order_1")
       {| files := {["certificate_order_1_1700000000.pdf" := Sample.pdf_bytes]};
          send_attempts := [] |}
     = (Ok "certificate_order_1_1700000000.pdf",
        {| files := {["certificate_order_1_1700000000.pdf" := Sample.pdf_bytes]};
           send_attempts := [] |}).
Proof. split; reflexivity. Qed.

(** C7, amended.  A generated file name is "certificate_", the order id
    with every "/" replaced by "_", "_", the clock in whole seconds and
    ".pdf"; two generated names are equal exactly when the sanitised order
    ids are equal and the two calls read the same second. *)
Theorem generated_filenames (ext : Externals) (amb1 amb2 : Ambient)
    (name1 name2 : json) (a1 a2 : Z) (o1 o2 : string) (w1 w2 : World)
    (f1 f2 : string) (w1' w2' : World) :
  generate_certificate ext amb1 name1 a1 (JStr o1) w1 = (Ok f1, w1') ->
  generate_certificate ext amb2 name2 a2 (JStr o2) w2 = (Ok f2, w2') ->
  f1 = "certificate_" +:+ replace_slash o1 +:+ "_" +:+ dec (time_cert amb1)
       +:+ ".pdf"
  /\ (f1 = f2 <->
      replace_slash o1 = replace_slash o2 /\ time_cert amb1 = time_cert amb2).
Proof.
  intros H1 H2.
  apply generate_certificate_ok in H1 as (o1' & d1 & [= <-] & -> & _).
  apply generate_certificate_ok in H2 as (o2' & d2 & [= <-] & -> & _).
  split; [reflexivity|]. split.
  - apply certificate_filename_inj.
  - unfold certificate_filename. now intros [-> ->].
Qed.

Lemma generated_filenames_witness :
  "certificate_ord_7_1700000000.pdf"
  = "certificate_" +:+ replace_slash "ord/7" +:+ "_"
    +:+ dec (time_cert Sample.amb) +:+ ".pdf"
  /\ ("certificate_ord_7_1700000000.pdf" = "certificate_ord_7_1700000000.pdf"
      <-> replace_slash "ord/7" = replace_slash "ord_7"
          /\ time_cert Sample.amb = time_cert Sample.amb).
Proof.
  apply (generated_filenames Sample.ext Sample.amb Sample.amb (JStr "Asha")
           (JStr "Ravi") 500 900 "ord/7" "ord_7" Sample.empty_world
           Sample.empty_world _ _
           {| files := {["certificate_ord_7_1700000000.pdf" := Sample.pdf_bytes]};
              send_attempts := [] |}
           {| files := {["certificate_ord_7_1700000000.pdf" := Sample.pdf_bytes]};
              send_attempts := [] |}).
  - reflexivity.
  - reflexivity.
Defined.

(** ** Further properties of [create_order] *)

Lemma razorpay_order_ok cfg ext amb n r :
  razorpay_order cfg ext amb n = Ok r ->
  status r = 200 /\ body_field "mode" r = Some (JStr "razorpay").
Proof.
  unfold razorpay_order.
  destruct (order_create ext _) as [order|]; [|discriminate]. cbn [bind].
  destruct (getitem order "id"); [|discriminate]. cbn [bind].
  destruct (getitem order "amount"); [|discriminate]. cbn [bind].
  destruct (getitem order "currency"); [|discriminate]. cbn [bind].
  intros [= <-]. split; reflexivity.
Qed.

Lemma create_order_positive cfg ext amb d v n :
  assoc "amount" d = Some v -> py_int ext v = Ok n -> 0 < n ->
  create_order cfg ext amb (JDict d) =
  if USE_RAZORPAY cfg then
    try_except (razorpay_order cfg ext amb n)
      (fun e => jsonify 500 [("error", JStr "Razorpay order creation failed");
                             ("details", JStr e)])
  else jsonify 200 (_fake_order cfg amb n).
Proof.
  intros Hd Hv Hn. unfold create_order.
  rewrite (or_empty_dict _ _ _ Hd), py_get_dict, Hd. cbn [bind from_option id].
  rewrite Hv. destruct (Z.leb_spec n 0); [lia|reflexivity].
Qed.




(** X3.  In Razorpay mode a positive amount n is sent to the gateway as
    n * 100 INR with a receipt named after the clock.  If the gateway
    raises, the answer is 500 with the text of the exception; if the order
    it returns has an id, an amount and a currency they are echoed with
    status 200; an order that lacks one of them gives 500. *)
Theorem create_order_gateway (cfg : Config) (ext : Externals) (amb : Ambient)
    (d : list (string * json)) (v : json) (n : Z) :
  USE_RAZORPAY cfg = true ->
  assoc "amount" d = Some v ->
  py_int ext v = Ok n ->
  0 < n ->
  match order_create ext (order_data_for amb n) with
  | Raise e =>
      create_order cfg ext amb (JDict d)
      = jsonify 500 [("error", JStr "Razorpay order creation failed");
                     ("details", JStr e)]
  | Ok order =>
      match assoc "id" order, assoc "amount" order, assoc "currency" order with
      | Some i, Some a, Some c =>
          create_order cfg ext amb (JDict d)
          = jsonify 200 [("id", i); ("amount", a); ("currency", c);
                         ("key", JStr (RAZORPAY_KEY_ID cfg));
                         ("mode", JStr "razorpay")]
      | _, _, _ => status (create_order cfg ext amb (JDict d)) = 500
      end
  end.
Proof.
  intros Hmode Hd Hv Hn.
  rewrite (create_order_positive _ _ _ _ _ _ Hd Hv Hn), Hmode.
  unfold razorpay_order, order_data_for.
  destruct (order_create ext _) as [order|e]; [|reflexivity].
  cbn [bind]. unfold getitem.
  destruct (assoc "id" order); [|reflexivity].
  destruct (assoc "amount" order); [|reflexivity].
  destruct (assoc "currency" order); reflexivity.
Qed.

Lemma create_order_gateway_witness :
  create_order SampleGateway.razorpay_cfg SampleGateway.ext Sample.amb
    (JDict [("amount", JInt 250)])
  = jsonify 200 [("id", JStr "order_N1"); ("amount", JInt 25000);
                 ("currency", JStr "INR"); ("key", JStr "rzp_live_key");
                 ("mode", JStr "razorpay")].
Proof.
  exact (create_order_gateway SampleGateway.razorpay_cfg SampleGateway.ext
           Sample.amb [("amount", JInt 250)] (JInt 250) 250
           eq_refl eq_refl eq_refl eq_refl).
Defined.

(** X16.  A float amount is truncated toward zero before it is checked: NaN
    and the infinities are answered 400 "Invalid amount", and a non-zero
    fraction between -1 and 1 is answered 400 "Amount must be > 0". *)
Theorem create_order_float_amount (cfg : Config) (ext : Externals)
    (amb : Ambient) (d : list (string * json)) (f : spec_float) :
  assoc "amount" d = Some (JFloat f) ->
  (f = S754_nan \/ (exists s, f = S754_infinity s) ->
   create_order cfg ext amb (JDict d) = jsonify 400 [("error", JStr "Invalid amount")])
  /\ (fraction f ->
      create_order cfg ext amb (JDict d)
      = jsonify 400 [("error", JStr "Amount must be > 0")]).
Proof.
  intros Hd. unfold create_order.
  rewrite (or_empty_dict _ _ _ Hd), py_get_dict, Hd. cbn [bind from_option id].
  split.
  - intros [->|[s ->]]; reflexivity.
  - destruct f as [| | |s m e]; simpl; try contradiction.
    intros [He Hm].
    assert (Hz : Z.shiftl (Z.pos m) e = 0).
    { rewrite <- (Z.opp_involutive e), Z.shiftl_opp_r, Z.shiftr_div_pow2 by lia.
      apply Z.div_small. lia. }
    rewrite Hz. now destruct s.
Qed.

Lemma create_order_float_amount_witness :
  create_order Sample.dummy_cfg Sample.ext Sample.amb
    (JDict [("amount", JFloat (S754_finite false 1 (-1)))])
  = jsonify 400 [("error", JStr "Amount must be > 0")].
Proof.
  apply (create_order_float_amount Sample.dummy_cfg Sample.ext Sample.amb
           [("amount", JFloat (S754_finite false 1 (-1)))]
           (S754_finite false 1 (-1))).
  - reflexivity.
  - simpl. lia.
Defined.

(** X17.  Every order that [create_order] returns with status 200 is
    labelled with the mode that [GET /] reports. *)
Theorem create_order_mode_agrees_with_root (cfg : Config) (ext : Externals)
    (amb : Ambient) (req : json) :
  status (create_order cfg ext amb req) = 200 ->
  body_field "mode" (create_order cfg ext amb req) = body_field "mode" (root cfg).
Proof.
  unfold create_order, root, mode_name.
  destruct (bind _ _) as [n|e]; [|discriminate].
  destruct (n <=? 0); [discriminate|].
  destruct (USE_RAZORPAY cfg); [|reflexivity].
  destruct (razorpay_order cfg ext amb n) as [r|e] eqn:Hr; simpl; [|discriminate].
  intros _. now apply razorpay_order_ok in Hr as [_ ->].
Qed.

Lemma create_order_mode_agrees_with_root_witness :
  body_field "mode"
    (create_order SampleGateway.razorpay_cfg SampleGateway.ext Sample.amb
       (JDict [("amount", JInt 250)]))
  = body_field "mode" (root SampleGateway.razorpay_cfg).
Proof.
  apply (create_order_mode_agrees_with_root SampleGateway.razorpay_cfg
           SampleGateway.ext Sample.amb (JDict [("amount", JInt 250)])).
  reflexivity.
Defined.

(** ** Further properties of [verify_signature] *)

(** X4.  In Razorpay mode the verdict is the gateway's: a payload is
    accepted exactly when it carries the three required fields and the
    gateway call on them returns.  Neither [simulate] nor the signature
    "sim_signature" opens a way around it. *)
Theorem razorpay_mode_defers_to_gateway (cfg : Config) (ext : Externals)
    (p : json) :
  USE_RAZORPAY cfg = true ->
  (verify_signature cfg ext p = Ok (true, None)
   <-> required_present p
       /\ verify_payment_signature ext (field_or_null "razorpay_order_id" p)
            (field_or_null "razorpay_payment_id" p)
            (field_or_null "razorpay_signature" p) = Ok tt).
Proof.
  intros Hmode. rewrite required_present_bool.
  destruct (dict_or_not p) as [[d ->]|Hp].
  - rewrite verify_signature_dict, Hmode.
    destruct (truthy _ && truthy _ && truthy _); simpl negb; cbv iota.
    + destruct (verify_payment_signature ext _ _ _) as [[]|e]; verdict.
    + verdict.
  - assert (field_or_null "razorpay_order_id" p = JNull) as Hnull.
    { destruct p; try reflexivity. now destruct (Hp d). }
    destruct (verify_signature_not_dict cfg ext p Hp) as [e ->].
    rewrite Hnull. simpl. verdict.
Qed.

Lemma razorpay_mode_defers_to_gateway_witness :
  verify_signature SampleGateway.razorpay_cfg SampleGateway.ext
    SampleGateway.shortcut
  = Ok (false, Some "Razorpay Signature Verification Failed")
  /\ (verify_signature SampleGateway.razorpay_cfg SampleGateway.ext
        SampleGateway.shortcut = Ok (true, None)
      <-> required_present SampleGateway.shortcut
          /\ verify_payment_signature SampleGateway.ext
               (field_or_null "razorpay_order_id" SampleGateway.shortcut)
               (field_or_null "razorpay_payment_id" SampleGateway.shortcut)
               (field_or_null "razorpay_signature" SampleGateway.shortcut)
             = Ok tt).
Proof.
  split; [reflexivity|].
  exact (razorpay_mode_defers_to_gateway SampleGateway.razorpay_cfg
           SampleGateway.ext SampleGateway.shortcut eq_refl).
Defined.

(** X5.  In either mode a dict in which a required field is absent or
    empty (null, false, 0, "", [] or {}) is rejected with "Missing fields",
    whatever the gateway would say. *)
Theorem missing_fields_message (cfg : Config) (ext : Externals)
    (d : list (string * json)) :
  ~ required_present (JDict d) ->
  verify_signature cfg ext (JDict d) = Ok (false, Some "Missing fields").
Proof.
  intros Hnp. rewrite verify_signature_dict.
  rewrite required_present_bool in Hnp.
  destruct (truthy _ && truthy _ && truthy _); [now destruct Hnp|reflexivity].
Qed.

Lemma missing_fields_message_witness :
  verify_signature SampleGateway.razorpay_cfg SampleGateway.ext
    (JDict [("razorpay_order_id", JStr "order_N1");
            ("razorpay_payment_id", JStr "");
            ("razorpay_signature", JStr "good")])
  = Ok (false, Some "Missing fields").
Proof.
  apply missing_fields_message.
  rewrite required_present_bool. discriminate.
Defined.

(** ** Further properties of [verify_payment] *)

Lemma send_email_attempts cfg ext m w res w2 :
  send_email_with_attachment cfg ext m w = (res, w2) ->
  send_attempts w2 = m :: send_attempts w.
Proof.
  unfold send_email_with_attachment.
  destruct (files w !! attachment_path m); intros [= _ <-]; reflexivity.
Qed.

(** A [try] block that raised did so before the email step. *)
Lemma certify_and_mail_raise cfg ext amb p w e w' :
  certify_and_mail cfg ext amb p w = (Raise e, w') ->
  send_attempts w' = send_attempts w /\ files w' = files w.
Proof.
  unfold certify_and_mail.
  destruct (read_donation ext amb p) as [d|e0]; [|intros [= _ <-]; auto].
  unfold generate_certificate.
  destruct (order_id d) as [| | | |o| |]; try (intros [= _ <-]; auto).
  destruct (canvas_save _ _ _ _ _ _) as [data|e1]; [|intros [= _ <-]; auto].
  destruct (email_enabled cfg (donor_email d)); [|discriminate].
  destruct (send_email_with_attachment _ _ _ _) as [[[]|] w2]; discriminate.
Qed.

(** A rejection always comes with a message. *)
Lemma rejection_has_message cfg ext p msg :
  verify_signature cfg ext p = Ok (false, msg) -> exists e, msg = Some e.
Proof.
  destruct (dict_or_not p) as [[d ->]|Hp].
  - rewrite verify_signature_dict.
    destruct (negb _); [intros [= <-]; eauto|].
    destruct (USE_RAZORPAY cfg).
    + destruct (verify_payment_signature ext _ _ _); intros [= <-]; eauto.
    + destruct (is_True _ || eq_str _ _); intros [= <-]; eauto.
  - destruct (verify_signature_not_dict cfg ext p Hp) as [e ->].
    intros [= <-]. eauto.
Qed.

(** X6.  A request body that is JSON but not an object (a list, a string,
    a number, true) is answered 400, the details naming the missing [get],
    and nothing is written or sent. *)
Theorem verify_payment_non_dict_body (cfg : Config) (ext : Externals)
    (amb : Ambient) (req : json) (w : World) :
  truthy req = true ->
  (forall d, req <> JDict d) ->
  verify_payment cfg ext amb req w
  = (Ok (jsonify 400
           [("error", JStr "Signature verification failed");
            ("details", JStr ("'" +:+ type_name req
                              +:+ "' object has no attribute 'get'"))]), w).
Proof.
  intros Ht Hp.
  apply verify_payment_rejected with (err := Some _).
  rewrite (or_empty_truthy _ Ht).
  unfold verify_signature, verify_signature_body.
  destruct req; try reflexivity. now destruct (Hp d).
Qed.

Lemma verify_payment_non_dict_body_witness :
  verify_payment Sample.dummy_cfg Sample.ext Sample.amb
    (JList [JStr "sim_signature"]) Sample.empty_world
  = (Ok (jsonify 400
           [("error", JStr "Signature verification failed");
            ("details", JStr "'list' object has no attribute 'get'")]),
     Sample.empty_world).
Proof.
  apply (verify_payment_non_dict_body Sample.dummy_cfg Sample.ext Sample.amb
           (JList [JStr "sim_signature"]) Sample.empty_world).
  - reflexivity.
  - discriminate.
Defined.

(** X7.  [verify_payment] answers 200, 400 or 500; it answers 400 exactly
    when [verify_signature] rejects the payload, and then the certificate
    directory and the mail log are as they were. *)
Theorem rejected_request_has_no_effect (cfg : Config) (ext : Externals)
    (amb : Ambient) (req : json) (w : World) (r : response) (w' : World) :
  verify_payment cfg ext amb req w = (Ok r, w') ->
  (status r = 200 \/ status r = 400 \/ status r = 500)
  /\ (status r = 400
      <-> exists e, verify_signature cfg ext (or_empty req) = Ok (false, Some e))
  /\ (status r = 400 -> w' = w).
Proof.
  intros Hvp.
  destruct (verify_signature_returns cfg ext (or_empty req)) as ([] & msg & Hv).
  - rewrite (verify_payment_accepted _ _ _ _ _ _ Hv) in Hvp. rewrite Hv.
    destruct (certify_and_mail _ _ _ _ _) as [[r0|e] w0] eqn:Hc;
      injection Hvp as <- <-.
    + apply certify_and_mail_ok in Hc. destruct Hc; simpl;
        (split; [auto|]); (split; [split; [discriminate|intros [? [=]]]|discriminate]).
    + simpl. split; [auto|].
      split; [split; [discriminate|intros [? [=]]]|discriminate].
  - destruct (rejection_has_message _ _ _ _ Hv) as [e ->].
    rewrite (verify_payment_rejected _ _ _ _ _ _ Hv) in Hvp.
    injection Hvp as <- <-. simpl. split; [auto|]. split; [|reflexivity].
    split; [eauto|reflexivity].
Qed.

Lemma rejected_request_has_no_effect_witness :
  (status (jsonify 400 [("error", JStr "Signature verification failed");
                        ("details", JStr "Missing fields")]) = 200
   \/ status (jsonify 400 [("error", JStr "Signature verification failed");
                           ("details", JStr "Missing fields")]) = 400
   \/ status (jsonify 400 [("error", JStr "Signature verification failed");
                           ("details", JStr "Missing fields")]) = 500)
  /\ (status (jsonify 400 [("error", JStr "Signature verification failed");
                           ("details", JStr "Missing fields")]) = 400
      <-> exists e,
            verify_signature Sample.dummy_cfg Sample.ext
              (or_empty Sample.simulate_only) = Ok (false, Some e))
  /\ (status (jsonify 400 [("error", JStr "Signature verification failed");
                           ("details", JStr "Missing fields")]) = 400
      -> Sample.empty_world = Sample.empty_world).
Proof.
  apply (rejected_request_has_no_effect Sample.dummy_cfg Sample.ext Sample.amb
           Sample.simulate_only Sample.empty_world).
  reflexivity.
Defined.

(** X8.  A verified request is certified whenever its amount can be read,
    its [razorpay_order_id] is a str and the canvas saves: the answer is
    200, the payment object holds that order id and the amount as read
    (0 without an amount field, and no sign check is made), the
    certificate URL names the new file, and the file holds what the canvas
    saved. *)
Theorem verified_request_is_certified (cfg : Config) (ext : Externals)
    (amb : Ambient) (dd : list (string * json)) (w : World)
    (msg : option string) (a : Z) (o : string) (data : list Byte.byte) :
  verify_signature cfg ext (JDict dd) = Ok (true, msg) ->
  py_int ext (from_option id (JInt 0) (assoc "amount" dd)) = Ok a ->
  assoc "razorpay_order_id" dd = Some (JStr o) ->
  canvas_save ext (certificate_filename o (time_cert amb))
    (from_option id (JStr "Donor") (assoc "name" dd)) a o (utc_date amb)
  = Ok data ->
  exists r w',
    verify_payment cfg ext amb (JDict dd) w = (Ok r, w')
    /\ status r = 200
    /\ body_field "payment" r
       = Some (JDict [("order_id", JStr o); ("amount", JInt a)])
    /\ body_field "certificate_url" r
       = Some (JStr ("/certificate/" +:+ certificate_filename o (time_cert amb)))
    /\ files w' = <[certificate_filename o (time_cert amb) := data]> (files w).
Proof.
  intros Hv Ha Ho Hsave.
  pose proof (or_empty_dict _ _ _ Ho) as Hor.
  rewrite <- Hor in Hv.
  rewrite (verify_payment_accepted _ _ _ _ _ _ Hv), Hor.
  unfold certify_and_mail.
  rewrite (read_donation_ok _ amb _ _ Ha), Ho.
  cbn [from_option id donor_name amount order_id donor_email].
  unfold generate_certificate. rewrite Hsave.
  destruct (email_enabled cfg _).
  - destruct (send_email_with_attachment _ _ _ _) as [[[]|e] w2] eqn:Hs;
      apply send_email_files in Hs; simpl in Hs;
      eexists _, _; (split; [reflexivity|]); repeat split; exact Hs.
  - eexists _, _. split; [reflexivity|]. repeat split.
Qed.

Lemma verified_request_is_certified_witness :
  exists r w',
    verify_payment Sample.dummy_cfg Sample.ext Sample.amb
      (Sample.paid [("amount", JInt (-5))]) Sample.empty_world = (Ok r, w')
    /\ status r = 200
    /\ body_field "payment" r
       = Some (JDict [("order_id", JStr "order_1"); ("amount", JInt (-5))])
    /\ body_field "certificate_url" r
       = Some (JStr ("/certificate/"
                     +:+ certificate_filename "order_1" (time_cert Sample.amb)))
    /\ files w'
       = <[certificate_filename "order_1" (time_cert Sample.amb) := Sample.pdf_bytes]>
           (files Sample.empty_world).
Proof.
  apply (verified_request_is_certified Sample.dummy_cfg Sample.ext Sample.amb
           [("razorpay_order_id", JStr "order_1");
            ("razorpay_payment_id", JStr "pay_1");
            ("razorpay_signature", JStr "sim_signature");
            ("amount", JInt (-5))]
           Sample.empty_world None (-5) "order_1" Sample.pdf_bytes).
  - reflexivity.
  - reflexivity.
  - reflexivity.
  - reflexivity.
Defined.

(** What a completed [try] block leaves behind. *)
Lemma certified_effects cfg ext amb dd w r w' :
  certified cfg ext amb (JDict dd) w r w' ->
  exists d o data sent err,
    read_donation ext amb (JDict dd) = Ok d
    /\ order_id d = JStr o
    /\ canvas_save ext (certificate_filename o (time_cert amb)) (donor_name d)
         (amount d) o (utc_date amb) = Ok data
    /\ r = jsonify 200
             (success_result cfg d
                ("/certificate/" +:+ certificate_filename o (time_cert amb))
                sent err)
    /\ files w' = <[certificate_filename o (time_cert amb) := data]> (files w)
    /\ (email_enabled cfg (donor_email d) = false /\ sent = false /\ err = None
        /\ send_attempts w' = send_attempts w
        \/ email_enabled cfg (donor_email d) = true
           /\ send_attempts w'
              = thanks_email ext d (certificate_filename o (time_cert amb))
                :: send_attempts w
           /\ match smtp_session ext (FROM_EMAIL cfg) (donor_email d)
                      (subject (thanks_email ext d
                                  (certificate_filename o (time_cert amb))))
                      (body (thanks_email ext d
                               (certificate_filename o (time_cert amb))))
                      (certificate_filename o (time_cert amb)) data with
              | Ok _ => sent = true /\ err = None
              | Raise e => sent = false /\ err = Some e
              end).
Proof.
  intros [d fname w1 Hd Hg Hen|d fname w1 w2 Hd Hg Hen Hs
         |d fname w1 w2 e Hd Hg Hen Hs];
    pose proof (generate_certificate_attempts _ _ _ _ _ _ _ _ Hg) as Hlog;
    apply generate_certificate_ok in Hg as (o & data & Ho & -> & Hsave & Hfiles).
  - exists d, o, data, false, None. rewrite Hfiles. repeat split; auto.
  - pose proof (send_email_files _ _ _ _ _ _ Hs) as Hf2.
    pose proof (send_email_attempts _ _ _ _ _ _ Hs) as Hl2.
    exists d, o, data, true, None. rewrite Hf2, Hfiles, Hl2, Hlog.
    repeat split; auto. right. repeat split; auto.
    unfold send_email_with_attachment in Hs.
    rewrite Hfiles, lookup_insert_eq in Hs. simpl in Hs.
    injection Hs as Hs _. simpl. now rewrite Hs.
  - pose proof (send_email_files _ _ _ _ _ _ Hs) as Hf2.
    pose proof (send_email_attempts _ _ _ _ _ _ Hs) as Hl2.
    exists d, o, data, false, (Some e). rewrite Hf2, Hfiles, Hl2, Hlog.
    repeat split; auto. right. repeat split; auto.
    unfold send_email_with_attachment in Hs.
    rewrite Hfiles, lookup_insert_eq in Hs. simpl in Hs.
    injection Hs as Hs _. simpl. now rewrite Hs.
Qed.

(** X15.  Whatever the order id, the name [generate_certificate] returns
    has no "/" in it: the file is an entry of the certificate directory
    itself. *)
Theorem generated_name_has_no_slash (ext : Externals) (amb : Ambient)
    (name : json) (a : Z) (oid : json) (w : World) (fname : string)
    (w1 : World) :
  generate_certificate ext amb name a oid w = (Ok fname, w1) ->
  has_char "/" fname = false.
Proof.
  intros Hg. apply generate_certificate_ok in Hg as (o & data & _ & -> & _).
  apply certificate_filename_no_slash.
Qed.

Lemma generated_name_has_no_slash_witness :
  has_char "/" "certificate_.._.._etc_passwd_1700000000.pdf" = false.
Proof.
  apply (generated_name_has_no_slash Sample.ext Sample.amb (JStr "Asha") 500
           (JStr "../../etc/passwd") Sample.empty_world _
           {| files := {["certificate_.._.._etc_passwd_1700000000.pdf"
                         := Sample.pdf_bytes]};
              send_attempts := [] |}).
  reflexivity.
Defined.

(** X9.  The certificate URL of a success response can be fetched at once:
    it is "/certificate/" followed by a name without "/", and
    [serve_certificate] answers 200 for that name in the state the handler
    left. *)
Theorem certificate_url_is_servable (cfg : Config) (ext : Externals)
    (amb : Ambient) (req : json) (w : World) (r : response) (w' : World) :
  verify_payment cfg ext amb req w = (Ok r, w') ->
  status r = 200 ->
  exists fname data,
    body_field "certificate_url" r = Some (JStr ("/certificate/" +:+ fname))
    /\ has_char "/" fname = false
    /\ serve_certificate fname w'
       = {| status := 200; payload := Attachment fname data |}.
Proof.
  intros Hvp Hst.
  destruct (verify_payment_success _ _ _ _ _ _ _ Hvp Hst) as [[msg Hv] Hc].
  destruct (accepted_is_dict _ _ _ _ Hv) as (dd & -> & Hor & _).
  rewrite Hor in Hc.
  apply certified_effects in Hc
    as (d & o & data & sent & err & _ & _ & _ & -> & Hfiles & _).
  exists (certificate_filename o (time_cert amb)), data.
  split; [reflexivity|]. split; [apply certificate_filename_no_slash|].
  rewrite (serve_certificate_entry _ _ _ (certificate_filename_names_itself _ _)).
  now rewrite Hfiles, lookup_insert_eq.
Qed.

Lemma certificate_url_is_servable_witness :
  exists fname data,
    body_field "certificate_url"
      (jsonify 200
         (success_result Sample.dummy_cfg
            {| donor_name := JStr "Donor"; donor_email := JNull; amount := 0;
               order_id := JStr "order_1" |}
            "/certificate/certificate_order_1_1700000000.pdf" false None))
    = Some (JStr ("/certificate/" +:+ fname))
    /\ has_char "/" fname = false
    /\ serve_certificate fname
         {| files := {["certificate_order_1_1700000000.pdf" := Sample.pdf_bytes]};
            send_attempts := [] |}
       = {| status := 200; payload := Attachment fname data |}.
Proof.
  apply (certificate_url_is_servable Sample.dummy_cfg Sample.ext Sample.amb
           (Sample.paid []) Sample.empty_world).
  - reflexivity.
  - reflexivity.
Defined.

(** X10.  A verified request whose [razorpay_order_id] is not a str (a
    number, say) is answered 500, the details naming the missing
    [replace]; no file is written and no email is sent. *)
Theorem non_string_order_id_is_internal_error (cfg : Config)
    (ext : Externals) (amb : Ambient) (dd : list (string * json)) (w : World)
    (msg : option string) (a : Z) (v : json) :
  verify_signature cfg ext (JDict dd) = Ok (true, msg) ->
  py_int ext (from_option id (JInt 0) (assoc "amount" dd)) = Ok a ->
  assoc "razorpay_order_id" dd = Some v ->
  (forall o, v <> JStr o) ->
  verify_payment cfg ext amb (JDict dd) w
  = (Ok (jsonify 500
           [("error", JStr "Internal error generating certificate");
            ("details", JStr ("'" +:+ type_name v
                              +:+ "' object has no attribute 'replace'"))]), w).
Proof.
  intros Hv Ha Ho Hns.
  pose proof (or_empty_dict _ _ _ Ho) as Hor.
  rewrite <- Hor in Hv.
  rewrite (verify_payment_accepted _ _ _ _ _ _ Hv), Hor.
  unfold certify_and_mail.
  rewrite (read_donation_ok _ amb _ _ Ha), Ho.
  cbn [from_option id donor_name amount order_id donor_email].
  unfold generate_certificate.
  destruct v; try reflexivity. now destruct (Hns s).
Qed.

Lemma non_string_order_id_is_internal_error_witness :
  verify_payment Sample.dummy_cfg Sample.ext Sample.amb
    (JDict [("razorpay_order_id", JInt 42); ("razorpay_payment_id", JStr "pay_1");
            ("razorpay_signature", JStr "sim_signature")])
    Sample.empty_world
  = (Ok (jsonify 500
           [("error", JStr "Internal error generating certificate");
            ("details", JStr ("'" +:+ type_name (JInt 42)
                              +:+ "' object has no attribute 'replace'"))]),
     Sample.empty_world).
Proof.
  apply (non_string_order_id_is_internal_error Sample.dummy_cfg Sample.ext
           Sample.amb
           [("razorpay_order_id", JInt 42); ("razorpay_payment_id", JStr "pay_1");
            ("razorpay_signature", JStr "sim_signature")]
           Sample.empty_world None 0 (JInt 42)).
  - reflexivity.
  - reflexivity.
  - reflexivity.
  - discriminate.
Defined.

(** X11.  One request causes at most one call of
    [send_email_with_attachment], and only a request answered 200 causes
    one: the call is addressed to the [email] field of the request and
    attaches the certificate named in the response. *)
Theorem at_most_one_email (cfg : Config) (ext : Externals) (amb : Ambient)
    (req : json) (w : World) (r : response) (w' : World) :
  verify_payment cfg ext amb req w = (Ok r, w') ->
  send_attempts w' = send_attempts w
  \/ (status r = 200
      /\ exists m,
           send_attempts w' = m :: send_attempts w
           /\ field "email" req = Some (to_email m)
           /\ body_field "certificate_url" r
              = Some (JStr ("/certificate/" +:+ attachment_path m))).
Proof.
  intros Hvp.
  destruct (verify_signature_returns cfg ext (or_empty req)) as ([] & msg & Hv).
  - rewrite (verify_payment_accepted _ _ _ _ _ _ Hv) in Hvp.
    destruct (accepted_is_dict _ _ _ _ Hv) as (dd & -> & Hor & _).
    rewrite Hor in Hvp.
    destruct (certify_and_mail _ _ _ _ _) as [[r0|e] w0] eqn:Hc;
      injection Hvp as <- <-.
    + apply certify_and_mail_ok, certified_effects in Hc
        as (d & o & data & sent & err & Hd & _ & _ & -> & _ & Hmail).
      destruct Hmail as [(_ & _ & _ & Hlog)|(Hen & Hlog & _)]; [now left|].
      right. split; [reflexivity|].
      eexists. split; [exact Hlog|]. split; [|reflexivity].
      apply read_donation_dict in Hd as (_ & Hem & _).
      unfold email_enabled in Hen. rewrite !andb_true_iff in Hen.
      destruct Hen as [[[Ht _] _] _]. rewrite Hem in Ht.
      apply truthy_field_Some in Ht as (v & Hf & _).
      simpl. rewrite Hem. unfold field_or_null. now rewrite Hf.
    + left. now apply certify_and_mail_raise in Hc.
  - rewrite (verify_payment_rejected _ _ _ _ _ _ Hv) in Hvp.
    injection Hvp as _ <-. now left.
Qed.

Lemma at_most_one_email_witness :
  send_attempts
    (snd (verify_payment Sample.mail_cfg Sample.ext Sample.amb
            (Sample.paid [("email", JStr "asha@example.com")])
            Sample.empty_world))
  = send_attempts Sample.empty_world
  \/ (status
        (jsonify 200
           (success_result Sample.mail_cfg
              {| donor_name := JStr "Donor";
                 donor_email := JStr "asha@example.com"; amount := 0;
                 order_id := JStr "order_1" |}
              "/certificate/certificate_order_1_1700000000.pdf" true None))
      = 200
      /\ exists m,
           send_attempts
             (snd (verify_payment Sample.mail_cfg Sample.ext Sample.amb
                     (Sample.paid [("email", JStr "asha@example.com")])
                     Sample.empty_world))
           = m :: send_attempts Sample.empty_world
           /\ field "email" (Sample.paid [("email", JStr "asha@example.com")])
              = Some (to_email m)
           /\ body_field "certificate_url"
                (jsonify 200
                   (success_result Sample.mail_cfg
                      {| donor_name := JStr "Donor";
                         donor_email := JStr "asha@example.com"; amount := 0;
                         order_id := JStr "order_1" |}
                      "/certificate/certificate_order_1_1700000000.pdf" true None))
              = Some (JStr ("/certificate/" +:+ attachment_path m))).
Proof.
  apply (at_most_one_email Sample.mail_cfg Sample.ext Sample.amb
           (Sample.paid [("email", JStr "asha@example.com")])
           Sample.empty_world).
  reflexivity.
Defined.

(** X12.  When a request answered 200 has an email address and the SMTP
    account is configured, the message is addressed to that address, its
    attachment is the certificate just written, and [email_sent] and
    [email_error] report what the SMTP session did with it. *)
Theorem email_outcome_is_smtp_outcome (cfg : Config) (ext : Externals)
    (amb : Ambient) (req : json) (w : World) (r : response) (w' : World)
    (em : json) :
  verify_payment cfg ext amb req w = (Ok r, w') ->
  status r = 200 ->
  field "email" req = Some em ->
  email_enabled cfg em = true ->
  exists m data,
    send_attempts w' = m :: send_attempts w
    /\ to_email m = em
    /\ body_field "certificate_url" r
       = Some (JStr ("/certificate/" +:+ attachment_path m))
    /\ files w' !! attachment_path m = Some data
    /\ match smtp_session ext (FROM_EMAIL cfg) em (subject m) (body m)
               (attachment_path m) data with
       | Ok _ =>
           body_field "email_sent" r = Some (JBool true)
           /\ body_field "email_error" r = Some JNull
       | Raise e =>
           body_field "email_sent" r = Some (JBool false)
           /\ body_field "email_error" r = Some (JStr e)
       end.
Proof.
  intros Hvp Hst Hem Hen.
  destruct (verify_payment_success _ _ _ _ _ _ _ Hvp Hst) as [[msg Hv] Hc].
  destruct (accepted_is_dict _ _ _ _ Hv) as (dd & -> & Hor & _).
  rewrite Hor in Hc.
  apply certified_effects in Hc
    as (d & o & data & sent & err & Hd & _ & _ & -> & Hfiles & Hmail).
  apply read_donation_dict in Hd as (_ & Hmail_to & _).
  assert (Hto : donor_email d = em).
  { rewrite Hmail_to. unfold field_or_null. now rewrite Hem. }
  rewrite Hto in Hmail.
  destruct Hmail as [(Hoff & _)|(_ & Hlog & Hsmtp)]; [congruence|].
  exists (thanks_email ext d (certificate_filename o (time_cert amb))), data.
  split; [exact Hlog|]. split; [exact Hto|]. split; [reflexivity|].
  split; [simpl; rewrite Hfiles; apply lookup_insert_eq|].
  cbn [attachment_path thanks_email] in *.
  destruct (smtp_session ext _ _ _ _ _ _); destruct Hsmtp as [-> ->];
    split; reflexivity.
Qed.

Lemma email_outcome_is_smtp_outcome_witness :
  exists m data,
    send_attempts
      {| files := {["certificate_order_1_1700000000.pdf" := Sample.pdf_bytes]};
         send_attempts :=
           [thanks_email Sample.ext
              {| donor_name := JStr "Donor";
                 donor_email := JStr "asha@example.com"; amount := 0;
                 order_id := JStr "order_1" |}
              "certificate_order_1_1700000000.pdf"] |}
    = m :: send_attempts Sample.empty_world
    /\ to_email m = JStr "asha@example.com"
    /\ body_field "certificate_url"
         (jsonify 200
            (success_result Sample.mail_cfg
               {| donor_name := JStr "Donor";
                  donor_email := JStr "asha@example.com"; amount := 0;
                  order_id := JStr "order_1" |}
               "/certificate/certificate_order_1_1700000000.pdf" true None))
       = Some (JStr ("/certificate/" +:+ attachment_path m))
    /\ files
         {| files := {["certificate_order_1_1700000000.pdf" := Sample.pdf_bytes]};
            send_attempts :=
              [thanks_email Sample.ext
                 {| donor_name := JStr "Donor";
                    donor_email := JStr "asha@example.com"; amount := 0;
                    order_id := JStr "order_1" |}
                 "certificate_order_1_1700000000.pdf"] |}
       !! attachment_path m = Some data
    /\ match smtp_session Sample.ext (FROM_EMAIL Sample.mail_cfg)
               (JStr "asha@example.com") (subject m) (body m)
               (attachment_path m) data with
       | Ok _ =>
           body_field "email_sent"
             (jsonify 200
                (success_result Sample.mail_cfg
                   {| donor_name := JStr "Donor";
                      donor_email := JStr "asha@example.com"; amount := 0;
                      order_id := JStr "order_1" |}
                   "/certificate/certificate_order_1_1700000000.pdf" true None))
           = Some (JBool true)
           /\ body_field "email_error"
                (jsonify 200
                   (success_result Sample.mail_cfg
                      {| donor_name := JStr "Donor";
                         donor_email := JStr "asha@example.com"; amount := 0;
                         order_id := JStr "order_1" |}
                      "/certificate/certificate_order_1_1700000000.pdf" true None))
              = Some JNull
       | Raise e =>
           body_field "email_sent"
             (jsonify 200
                (success_result Sample.mail_cfg
                   {| donor_name := JStr "Donor";
                      donor_email := JStr "asha@example.com"; amount := 0;
                      order_id := JStr "order_1" |}
                   "/certificate/certificate_order_1_1700000000.pdf" true None))
           = Some (JBool false)
           /\ body_field "email_error"
                (jsonify 200
                   (success_result Sample.mail_cfg
                      {| donor_name := JStr "Donor";
                         donor_email := JStr "asha@example.com"; amount := 0;
                         order_id := JStr "order_1" |}
                      "/certificate/certificate_order_1_1700000000.pdf" true None))
              = Some (JStr e)
       end.
Proof.
  apply (email_outcome_is_smtp_outcome Sample.mail_cfg Sample.ext Sample.amb
           (Sample.paid [("email", JStr "asha@example.com")])
           Sample.empty_world).
  - reflexivity.
  - reflexivity.
  - reflexivity.
  - reflexivity.
Defined.

(** X13.  [verify_payment] removes no certificate, and the only name whose
    content it can change is the certificate name built from the
    [razorpay_order_id] of the request and the clock. *)
Theorem verify_payment_touches_one_file (cfg : Config) (ext : Externals)
    (amb : Ambient) (req : json) (w : World) (r : response) (w' : World)
    (name : string) :
  verify_payment cfg ext amb req w = (Ok r, w') ->
  (is_Some (files w !! name) -> is_Some (files w' !! name))
  /\ (files w' !! name = files w !! name
      \/ exists o,
           field "razorpay_order_id" req = Some (JStr o)
           /\ name = certificate_filename o (time_cert amb)).
Proof.
  intros Hvp.
  assert (Hsame : files w' = files w ->
          (is_Some (files w !! name) -> is_Some (files w' !! name))
          /\ (files w' !! name = files w !! name
              \/ exists o,
                   field "razorpay_order_id" req = Some (JStr o)
                   /\ name = certificate_filename o (time_cert amb))).
  { intros ->. auto. }
  destruct (verify_signature_returns cfg ext (or_empty req)) as ([] & msg & Hv).
  - rewrite (verify_payment_accepted _ _ _ _ _ _ Hv) in Hvp.
    destruct (accepted_is_dict _ _ _ _ Hv) as (dd & -> & Hor & Hreq).
    rewrite Hor in Hvp.
    destruct (certify_and_mail _ _ _ _ _) as [[r0|e] w0] eqn:Hc;
      injection Hvp as <- <-.
    + apply certify_and_mail_ok, certified_effects in Hc
        as (d & o & data & sent & err & Hd & Ho & _ & _ & Hfiles & _).
      apply read_donation_dict in Hd as (_ & _ & _ & Hoid).
      apply Forall_cons_1 in Hreq as [Hpresent _].
      apply truthy_field_Some in Hpresent as (v & Hf & _).
      simpl in Hf. rewrite Hf in Hoid. simpl in Hoid.
      rewrite Hfiles.
      destruct (decide (certificate_filename o (time_cert amb) = name)) as [<-|Hne].
      * split; [rewrite lookup_insert_eq; eauto|].
        right. exists o. split; [simpl; congruence|reflexivity].
      * rewrite lookup_insert_ne by exact Hne. auto.
    + apply Hsame. now apply certify_and_mail_raise in Hc.
  - rewrite (verify_payment_rejected _ _ _ _ _ _ Hv) in Hvp.
    injection Hvp as _ <-. now apply Hsame.
Qed.

Lemma verify_payment_touches_one_file_witness :
  (is_Some (files Sample.empty_world !! "certificate_order_1_1700000000.pdf") ->
   is_Some
     (files
        (snd (verify_payment Sample.dummy_cfg Sample.ext Sample.amb
                (Sample.paid []) Sample.empty_world))
      !! "certificate_order_1_1700000000.pdf"))
  /\ (files
        (snd (verify_payment Sample.dummy_cfg Sample.ext Sample.amb
                (Sample.paid []) Sample.empty_world))
      !! "certificate_order_1_1700000000.pdf"
      = files Sample.empty_world !! "certificate_order_1_1700000000.pdf"
      \/ exists o,
           field "razorpay_order_id" (Sample.paid []) = Some (JStr o)
           /\ "certificate_order_1_1700000000.pdf"
              = certificate_filename o (time_cert Sample.amb)).
Proof.
  apply (verify_payment_touches_one_file Sample.dummy_cfg Sample.ext Sample.amb
           (Sample.paid []) Sample.empty_world
           (jsonify 200
              (success_result Sample.dummy_cfg
                 {| donor_name := JStr "Donor"; donor_email := JNull; amount := 0;
                    order_id := JStr "order_1" |}
                 "/certificate/certificate_order_1_1700000000.pdf" false None))).
  reflexivity.
Defined.

(** X14.  Two certificates written one after the other under different
    sanitised order ids, or in different seconds, are both in the
    directory afterwards, each with the bytes saved for it. *)
Theorem distinct_certificates_coexist (ext : Externals) (amb1 amb2 : Ambient)
    (name1 name2 : json) (a1 a2 : Z) (o1 o2 : string) (w w1 w2 : World)
    (f1 f2 : string) :
  generate_certificate ext amb1 name1 a1 (JStr o1) w = (Ok f1, w1) ->
  generate_certificate ext amb2 name2 a2 (JStr o2) w1 = (Ok f2, w2) ->
  replace_slash o1 <> replace_slash o2 \/ time_cert amb1 <> time_cert amb2 ->
  exists d1 d2,
    canvas_save ext f1 name1 a1 o1 (utc_date amb1) = Ok d1
    /\ canvas_save ext f2 name2 a2 o2 (utc_date amb2) = Ok d2
    /\ serve_certificate f1 w2 = {| status := 200; payload := Attachment f1 d1 |}
    /\ serve_certificate f2 w2 = {| status := 200; payload := Attachment f2 d2 |}.
Proof.
  intros H1 H2 Hdiff.
  apply generate_certificate_ok in H1 as (o1' & d1 & [= <-] & -> & Hs1 & Hf1).
  apply generate_certificate_ok in H2 as (o2' & d2 & [= <-] & -> & Hs2 & Hf2).
  exists d1, d2. split; [exact Hs1|]. split; [exact Hs2|].
  assert (Hne : certificate_filename o2 (time_cert amb2)
                <> certificate_filename o1 (time_cert amb1)).
  { intros Heq. apply certificate_filename_inj in Heq as [Ho Ht].
    destruct Hdiff; congruence. }
  rewrite !(serve_certificate_entry _ _ _ (certificate_filename_names_itself _ _)).
  rewrite Hf2, Hf1. split.
  - now rewrite lookup_insert_ne, lookup_insert_eq.
  - now rewrite lookup_insert_eq.
Qed.

Lemma distinct_certificates_coexist_witness :
  exists d1 d2,
    canvas_save Sample.ext "certificate_order_1_1700000000.pdf" (JStr "Asha")
      500 "order_1" (utc_date Sample.amb) = Ok d1
    /\ canvas_save Sample.ext "certificate_order_2_1700000000.pdf" (JStr "Ravi")
         900 "order_2" (utc_date Sample.amb) = Ok d2
    /\ serve_certificate "certificate_order_1_1700000000.pdf"
         {| files := <["certificate_order_2_1700000000.pdf" := Sample.pdf_bytes]>
                       {["certificate_order_1_1700000000.pdf" := Sample.pdf_bytes]};
            send_attempts := [] |}
       = {| status := 200;
            payload := Attachment "certificate_order_1_1700000000.pdf" d1 |}
    /\ serve_certificate "certificate_order_2_1700000000.pdf"
         {| files := <["certificate_order_2_1700000000.pdf" := Sample.pdf_bytes]>
                       {["certificate_order_1_1700000000.pdf" := Sample.pdf_bytes]};
            send_attempts := [] |}
       = {| status := 200;
            payload := Attachment "certificate_order_2_1700000000.pdf" d2 |}.
Proof.
  apply (distinct_certificates_coexist Sample.ext Sample.amb Sample.amb
           (JStr "Asha") (JStr "Ravi") 500 900 "order_1" "order_2"
           Sample.empty_world
           {| files := {["certificate_order_1_1700000000.pdf" := Sample.pdf_bytes]};
              send_attempts := [] |}).
  - reflexivity.
  - reflexivity.
  - left. discriminate.
Defined.

(** X18.  An order created in dummy mode can be paid in dummy mode: the id
    that [create_order] returns, sent back with any non-empty payment id
    and the signature "sim_signature", passes [verify_signature]. *)
Theorem dummy_order_can_be_verified (cfg : Config) (ext : Externals)
    (amb : Ambient) (req : json) (pid : json) :
  USE_RAZORPAY cfg = false ->
  status (create_order cfg ext amb req) = 200 ->
  truthy pid = true ->
  exists oid,
    body_field "id" (create_order cfg ext amb req) = Some oid
    /\ verify_signature cfg ext
         (JDict [("razorpay_order_id", oid); ("razorpay_payment_id", pid);
                 ("razorpay_signature", JStr "sim_signature")])
       = Ok (true, None).
Proof.
  intros Hmode Hst Hpid. unfold create_order in *. rewrite Hmode in *.
  destruct (bind _ _) as [n|e]; [|discriminate].
  destruct (n <=? 0); [discriminate|].
  eexists. split; [reflexivity|].
  rewrite verify_signature_dict, Hmode.
  cbn [field_or_null field assoc String.eqb Ascii.eqb Bool.eqb from_option id].
  rewrite Hpid. reflexivity.
Qed.

Lemma dummy_order_can_be_verified_witness :
  exists oid,
    body_field "id"
      (create_order Sample.dummy_cfg Sample.ext Sample.amb
         (JDict [("amount", JInt 250)])) = Some oid
    /\ verify_signature Sample.dummy_cfg Sample.ext
         (JDict [("razorpay_order_id", oid);
                 ("razorpay_payment_id", JStr "pay_1");
                 ("razorpay_signature", JStr "sim_signature")])
       = Ok (true, None).
Proof.
  apply (dummy_order_can_be_verified Sample.dummy_cfg Sample.ext Sample.amb
           (JDict [("amount", JInt 250)]) (JStr "pay_1")).
  - reflexivity.
  - reflexivity.
  - reflexivity.
Defined.

Lemma replace_slash_id s : has_char "/" s = false -> replace_slash s = s.
Proof.
  induction s as [|c s IH]; cbn [replace_slash has_char]; [reflexivity|].
  intros H. apply orb_false_elim in H as [Hc Hs].
  rewrite Ascii.eqb_sym in Hc. now rewrite Hc, (IH Hs).
Qed.

(** X19.  For order ids without "/" the certificate name keeps the order
    id as it is, so two names are equal exactly when the order ids are
    equal and the seconds are equal. *)
Theorem slash_free_orders_never_collide (o1 o2 : string) (t1 t2 : Z) :
  has_char "/" o1 = false ->
  has_char "/" o2 = false ->
  certificate_filename o1 t1 = "certificate_" +:+ o1 +:+ "_" +:+ dec t1 +:+ ".pdf"
  /\ (certificate_filename o1 t1 = certificate_filename o2 t2
      <-> o1 = o2 /\ t1 = t2).
Proof.
  intros H1 H2. split.
  - unfold certificate_filename. now rewrite (replace_slash_id _ H1).
  - split.
    + intros Heq. apply certificate_filename_inj in Heq as [Ho Ht].
      now rewrite (replace_slash_id _ H1), (replace_slash_id _ H2) in Ho.
    + now intros [-> ->].
Qed.

Lemma slash_free_orders_never_collide_witness :
  certificate_filename "order_1" 1700000000
  = "certificate_" +:+ "order_1" +:+ "_" +:+ dec 1700000000 +:+ ".pdf"
  /\ (certificate_filename "order_1" 1700000000
      = certificate_filename "order_2" 1700000000
      <-> "order_1" = "order_2" /\ 1700000000 = 1700000000).
Proof.
  apply (slash_free_orders_never_collide "order_1" "order_2" 1700000000
           1700000000); reflexivity.
Defined.

(** X20.  An order id and the same id with its "/" already replaced by "_"
    get the same certificate name in the same second. *)
Theorem sanitised_order_shares_name (o : string) (t : Z) :
  certificate_filename (replace_slash o) t = certificate_filename o t.
Proof.
  unfold certificate_filename.
  now rewrite (replace_slash_id _ (replace_slash_no_slash o)).
Qed.
